(** * agentic_security/report_chart.py: identifier generation and report rendering

    A shallow embedding of [generate_identifiers] and [plot_security_report].

    Conventions of the model:
    - Python integers that come from [len] and [range] are [nat]; the numeric
      columns ([failureRate], [tokens]) hold exact rationals [Q]: comparisons,
      [max], [min] and [int] are exact on them, floating-point rounding is
      not modelled.
    - Exceptions are values of [exn]; code that can raise returns [result];
      code that also logs or touches pyplot's figure registry runs in the
      state-and-exception monad [M].
    - Library calls (pandas, numpy, matplotlib) are modelled by what the
      program observes of them: a column read raises [KeyError] on a missing
      column, the sort is a parameter constrained by its contract, the drawing
      calls record what they are given in a [Chart]. *)

From Stdlib Require Import List String Ascii Arith Lia Bool ZArith.
From Stdlib Require Import QArith Qround Qabs Lqa.
From Stdlib Require Import Permutation Sorted RelationClasses.
From Stdlib Require Import DecimalString DecimalNat.
Import ListNotations.

Set Implicit Arguments.
Local Open Scope nat_scope.
Local Open Scope list_scope.

(** ** Exceptions and results *)

Inductive exn : Type :=
| TypeError (msg : string)
| ValueError (msg : string)
| OverflowError (msg : string)
| IndexError (msg : string)
| KeyError (key : string)
| ZeroDivisionError (msg : string).

(** [str(e)]: the message, and for a [KeyError] the repr of the key. *)
Definition str_exn (e : exn) : string :=
  match e with
  | TypeError m | ValueError m | OverflowError m | IndexError m
  | ZeroDivisionError m => m
  | KeyError k => ("'" ++ k ++ "'")%string
  end.

(** The class name of an exception, as [type(e).__name__] gives it. *)
Definition class_name (e : exn) : string :=
  match e with
  | TypeError _ => "TypeError"
  | ValueError _ => "ValueError"
  | OverflowError _ => "OverflowError"
  | IndexError _ => "IndexError"
  | KeyError _ => "KeyError"
  | ZeroDivisionError _ => "ZeroDivisionError"
  end.

Inductive result (A : Type) : Type :=
| Return (a : A)
| Raise (e : exn).

Arguments Return {A} a.
Arguments Raise {A} e.

Definition rbind {A B} (r : result A) (k : A -> result B) : result B :=
  match r with
  | Return a => k a
  | Raise e => Raise e
  end.

(** ** Program state: the log and pyplot's registry of open figures *)

Inductive level : Type := INFO | ERROR.

Record state : Type := mkState {
  log : list (level * string);
  figures : list nat
}.

Definition M (A : Type) : Type := state -> result A * state.

Definition ret {A} (a : A) : M A := fun s => (Return a, s).
Definition raise {A} (e : exn) : M A := fun s => (Raise e, s).
Definition bind {A B} (m : M A) (k : A -> M B) : M B :=
  fun s => match m s with
           | (Return a, s') => k a s'
           | (Raise e, s') => (Raise e, s')
           end.
Definition lift {A} (r : result A) : M A := fun s => (r, s).

(** [try: body except Exception as e: handler e] *)
Definition try_except {A} (body : M A) (handler : exn -> M A) : M A :=
  fun s => match body s with
           | (Return a, s') => (Return a, s')
           | (Raise e, s') => handler e s'
           end.

Declare Scope monad_scope.
Delimit Scope monad_scope with monad.
Notation "x <- c ;; k" := (bind c (fun x => k))
  (at level 61, c at next level, right associativity) : monad_scope.
Notation "c ;;; k" := (bind c (fun _ => k))
  (at level 61, right associativity) : monad_scope.
Notation "x <-r c ;; k" := (rbind c (fun x => k))
  (at level 61, c at next level, right associativity) : monad_scope.

Definition logging (l : level) (msg : string) : M unit :=
  fun s => (Return tt, mkState (log s ++ [(l, msg)]) (figures s)).
Definition logging_info := logging INFO.
Definition logging_error := logging ERROR.

(** ** Data model *)

(** A pandas [DataFrame] as the program reads it: its length and the columns
    the program names, each present or missing.  The numeric columns are
    typed [Q]. *)
Record DataFrame : Type := mkDataFrame {
  df_len : nat;
  df_module : option (list string);
  df_failureRate : option (list Q);
  df_tokens : option (list Q);
  df_identifier : option (list string)
}.

(** Modelled from the spec: [Table] is declared in [.primitives], which is
    not part of the sources at hand.  The spec gives the input as "a tabular
    structure (mapping from column name to column of values ...) with columns
    module (text), failureRate (numeric), tokens (numeric)"; a column may be
    missing. *)
Record Table : Type := mkTable {
  t_module : option (list string);
  t_failureRate : option (list Q);
  t_tokens : option (list Q)
}.

(** The Python values the two functions can be handed. *)
Inductive pyobj : Type :=
| PyTable (t : Table)
| PyDataFrame (d : DataFrame)
| PyOther (repr : string).

(** ** [generate_identifiers] *)

(** [str(n)] for a non-negative integer. *)
Definition str_nat (n : nat) : string := NilEmpty.string_of_uint (Nat.to_uint n).

Definition alphabet : string := "ABCDEFGHIJKLMNOPQRSTUVWXYZ".
Definition num_letters : nat := String.length alphabet.
Definition max_identifiers : nat := num_letters * num_letters.

(** [range(n)] *)
Definition range (n : nat) : list nat := seq 0 n.

(** One iteration of the loop: the identifier for index [i], or the
    [IndexError] of the guard.  [alphabet[letter_index]] itself raises
    [IndexError] past the end of the string. *)
Definition loop_body (i : nat) : result string :=
  let letter_index := i / num_letters in
  if num_letters <=? letter_index then
    Raise (IndexError "Identifier generation exceeded the supported range.")
  else
    let number := i mod num_letters + 1 in
    match String.get letter_index alphabet with
    | Some c => Return (String c (str_nat number))
    | None => Raise (IndexError "string index out of range")
    end.

(** [for i in range(data_length): ... identifiers.append(identifier)] *)
Fixpoint loop (indices : list nat) (identifiers : list string)
  : result (list string) :=
  match indices with
  | [] => Return identifiers
  | i :: rest =>
      match loop_body i with
      | Return identifier => loop rest (identifiers ++ [identifier])
      | Raise e => Raise e
      end
  end.

(** The body of the [try] block. *)
Definition generate_identifiers_body (data : pyobj) : result (list string) :=
  match data with
  | PyDataFrame d =>
      let data_length := df_len d in
      if data_length =? 0 then Raise (ValueError "DataFrame cannot be empty.")
      else if max_identifiers <? data_length then
        Raise (OverflowError
                 ("Cannot generate more than " ++ str_nat max_identifiers
                  ++ " unique identifiers.")%string)
      else loop (range data_length) []
  | _ => Raise (TypeError "Input argument must be a pandas DataFrame.")
  end.

(** [except (TypeError, ValueError, OverflowError, IndexError) as e] *)
Definition caught_by_generate_identifiers (e : exn) : bool :=
  match e with
  | TypeError _ | ValueError _ | OverflowError _ | IndexError _ => true
  | KeyError _ | ZeroDivisionError _ => false
  end.

Definition generate_identifiers (data : pyobj) : M (list string) :=
  try_except (lift (generate_identifiers_body data))
    (fun e =>
       if caught_by_generate_identifiers e then
         (logging_error ("Error in generate_identifiers: " ++ str_exn e)%string ;;;
          raise e)%monad
       else raise e).

(** ** Library calls used by [plot_security_report] *)

(** [pd.DataFrame(table)]: the columns must have one length, which becomes the
    length of the frame (0 when there is no column at all). *)
Definition column_lengths (t : Table) : list nat :=
  match t_module t with Some c => [List.length c] | None => [] end ++
  match t_failureRate t with Some c => [List.length c] | None => [] end ++
  match t_tokens t with Some c => [List.length c] | None => [] end.

Definition pd_DataFrame (t : Table) : result DataFrame :=
  match column_lengths t with
  | [] => Return (mkDataFrame 0 None None None None)
  | n :: ns =>
      if forallb (Nat.eqb n) ns then
        Return (mkDataFrame n (t_module t) (t_failureRate t) (t_tokens t) None)
      else Raise (ValueError "All arrays must be of the same length")
  end.

(** [data[name]] for the four columns the program reads. *)
Definition getitem {A} (name : string) (column : option (list A))
  : result (list A) :=
  match column with
  | Some c => Return c
  | None => Raise (KeyError name)
  end.

(** [data.take(indexer)]: the rows at the given positions, in that order. *)
Definition take_column {A} (default : A) (indexer : list nat) (c : list A)
  : list A :=
  map (fun i => nth i c default) indexer.

Definition take (indexer : list nat) (d : DataFrame) : DataFrame :=
  mkDataFrame (List.length indexer)
    (option_map (take_column EmptyString indexer) (df_module d))
    (option_map (take_column 0%Q indexer) (df_failureRate d))
    (option_map (take_column 0%Q indexer) (df_tokens d))
    (option_map (take_column EmptyString indexer) (df_identifier d)).

(** [data["identifier"] = identifiers] *)
Definition set_identifier (identifiers : list string) (d : DataFrame)
  : DataFrame :=
  mkDataFrame (df_len d) (df_module d) (df_failureRate d) (df_tokens d)
    (Some identifiers).

(** The builtin [max] over a sequence: the first of the largest items. *)
Definition py_max (xs : list Q) : result Q :=
  match xs with
  | [] => Raise (ValueError "max() arg is an empty sequence")
  | x :: rest =>
      Return (fold_left (fun m y => if Qlt_le_dec m y then y else m) rest x)
  end.

(** [Series.min()] and [Series.max()] of a numeric column.  On an empty
    column pandas answers NaN, which [Q] has not; the program reads them only
    after [generate_identifiers] has rejected an empty frame. *)
Definition series_min (xs : list Q) : Q :=
  match xs with
  | [] => 0%Q
  | x :: rest => fold_left (fun m y => if Qlt_le_dec y m then y else m) rest x
  end.

Definition series_max (xs : list Q) : Q :=
  match xs with
  | [] => 0%Q
  | x :: rest => fold_left (fun m y => if Qlt_le_dec m y then y else m) rest x
  end.

(** A division; a zero divisor is reported, so that its absence can be
    stated. *)
Definition true_divide (a b : Q) : result Q :=
  if Qeq_bool b 0 then Raise (ZeroDivisionError "division by zero")
  else Return (a / b)%Q.

(** [matplotlib.colors.Normalize(vmin, vmax)] applied to a value: equal
    bounds map everything to 0, inverted bounds are an error, otherwise the
    value is rescaled linearly. *)
Definition Normalize (vmin vmax value : Q) : result Q :=
  if Qeq_bool vmin vmax then Return 0%Q
  else if Qle_bool vmin vmax then true_divide (value - vmin) (vmax - vmin)
  else Raise (ValueError "minvalue must be less than or equal to maxvalue").

(** [np.linspace(0, 2 * np.pi, n, endpoint=False)]: each angle is kept as its
    fraction of a full turn, [i / n]. *)
Definition linspace_turns (n : nat) : list Q :=
  map (fun i => (Z.of_nat i # Pos.of_nat n)%Q) (seq 0 n).

(** [np.arange(0, stop, 20)]: [ceil(stop / 20)] values 0, 20, 40, ... *)
Definition arange_20 (stop : Q) : list Q :=
  map (fun k => inject_Z (20 * Z.of_nat k))
      (seq 0 (Z.to_nat (Qceiling (stop / 20)))).

(** [int(x)]: truncation towards zero. *)
Definition py_int (x : Q) : Z := Z.quot (Qnum x) (Z.pos (Qden x)).

(** [range(0, stop, 20)] *)
Definition range_20 (stop : Z) : list nat :=
  map (fun k => 20 * k) (seq 0 (Z.to_nat ((stop + 19) / 20))).

(** [Axis.set_ticklabels(labels)] after [set_ticks(ticks)]: matplotlib
    turns down a non-empty list of labels whose length is not the number of
    tick locations; an empty list only removes the labels. *)
Definition set_ticklabels {A} (ticks : list A) (labels : list string)
  : result unit :=
  if negb (List.length labels =? 0)
     && negb (List.length ticks =? List.length labels)
  then
    Raise (ValueError
             ("The number of FixedLocator locations ("
              ++ str_nat (List.length ticks)
              ++ "), usually from a call to set_ticks, does not match the number of labels ("
              ++ str_nat (List.length labels) ++ ").")%string)
  else Return tt.

(** [zip] of three sequences. *)
Fixpoint zip3 {A B C} (xs : list A) (ys : list B) (zs : list C)
  : list (A * B * C) :=
  match xs, ys, zs with
  | x :: xs', y :: ys', z :: zs' => (x, y, z) :: zip3 xs' ys' zs'
  | _, _, _ => []
  end.

(** [plt.subplots(...)]: pyplot numbers the new figure one past the largest
    open one and registers it. *)
Definition plt_subplots : M nat :=
  fun s => let num := S (fold_right Nat.max 0 (figures s)) in
           (Return num, mkState (log s) (figures s ++ [num])).

(** [plt.close(fig)] *)
Definition plt_close (num : nat) : M unit :=
  fun s => (Return tt,
            mkState (log s) (filter (fun k => negb (k =? num)) (figures s))).

(** ** The chart that the drawing calls build *)

(** A colour [cmap(x)]: the colormap, given by its colour stops and its
    number of levels, and the point at which it is read. *)
Record Color : Type := mkColor {
  cmap_stops : list string;
  cmap_levels : nat;
  cmap_at : Q
}.

Record Bar : Type := mkBar {
  bar_angle : Q;
  bar_height : Q;
  bar_width : Q;
  bar_color : Color;
  bar_alpha : Q
}.

Record Text : Type := mkText {
  text_angle : Q;
  text_radius : Q;
  text_string : string;
  text_rotation : Q
}.

Record Cell : Type := mkCell {
  cell_text : string;
  cell_facecolor : string;
  cell_bold : bool
}.

(** The chart, as the arguments the program hands to the drawing calls: the
    bars given to [ax.bar], the limits given to [ax.set_ylim], the tick
    locations and labels given to [set_xticks], [set_yticks] and their
    label calls, the spokes given to [ax.vlines], the norm of the
    [ScalarMappable] with the label of its colour bar, and the texts.  What
    matplotlib then draws from them (an axis it widens when both limits are
    equal, a legend it widens when the norm is a single value) is not
    modelled. *)
Record Chart : Type := mkChart {
  facecolor : string;
  bars : list Bar;
  set_ylim : Q * Q;
  xticks : list Q;
  xticklabels : list string;
  yticks : list Q;
  yticklabels : list string;
  vlines : list Q * Q * Q;
  colorbar_norm : Q * Q * string;
  suptitle : string;
  caption : string;
  texts : list Text;
  table_cells : list Cell
}.

Inductive position : Type := AtStart | AtEnd.

(** The [io.BytesIO] that is returned: which figure was encoded into it, at
    what resolution, and where its stream position is. *)
Record BytesIO : Type := mkBytesIO {
  png_of : Chart;
  dpi : nat;
  tell : position
}.

Definition seek_0 (b : BytesIO) : BytesIO := mkBytesIO (png_of b) (dpi b) AtStart.

(** [for (row, col), cell in table.get_celld().items()]: one cell per row of
    [table_data], shaded by the parity of its row, the header row bold. *)
Definition style_cells (table_data : list string) : list Cell :=
  map (fun rc => mkCell (snd rc)
                   (if fst rc mod 2 =? 0 then "#f0f0f0"%string else "#e0e0e0"%string)
                   (fst rc =? 0))
      (combine (seq 0 (List.length table_data)) table_data).

(** [[cmap(norm(t)) for t in data["tokens"]]] *)
Fixpoint bar_colors (stops : list string) (vmin vmax : Q) (tokens : list Q)
  : result (list Color) :=
  match tokens with
  | [] => Return []
  | t :: rest =>
      (x <-r Normalize vmin vmax t ;;
       cs <-r bar_colors stops vmin vmax rest ;;
       Return (mkColor stops 256 x :: cs))%monad
  end.

(** ** [plot_security_report] *)

Section Renderer.

(** The indexer that [sort_values("failureRate", ascending=False)] computes
    from the key column with pandas' default sorting algorithm. *)
Variable argsort_descending : list Q -> list nat.

(** The [.1f] formatting of a number. *)
Variable format_1f : Q -> string.

(** [data.sort_values("failureRate", ascending=False).reset_index(drop=True)] *)
Definition sort_values (d : DataFrame) : result DataFrame :=
  match df_failureRate d with
  | Some keys => Return (take (argsort_descending keys) d)
  | None => Raise (KeyError "failureRate")
  end.

(** The body of the [try] block.  A column is read through [getitem] where
    the program first reads it after it last changed; rereading it then
    gives the same column.  Calls that only set fonts, sizes, line styles
    or the layout leave the modelled chart as it is. *)
Definition plot_security_report_body (table : pyobj) : M BytesIO :=
  (t <- match table with
        | PyTable t => ret t
        | _ => raise (TypeError "Input argument must be a pandas DataFrame.")
        end ;;
   logging_info "Data preprocessing started." ;;;
   data <- lift (pd_DataFrame t) ;;
   data <- lift (sort_values data) ;;
   identifiers <- generate_identifiers (PyDataFrame data) ;;
   let data := set_identifier identifiers data in
   fig <- plt_subplots ;;
   logging_info "Plot setup complete." ;;;
   let colors := rev ["#6C5B7B"; "#C06C84"; "#F67280"; "#F8B195"]%string in
   tokens <- lift (getitem "tokens" (df_tokens data)) ;;
   let vmin := series_min tokens in
   let vmax := series_max tokens in
   let angles := linspace_turns (df_len data) in
   failureRate <- lift (getitem "failureRate" (df_failureRate data)) ;;
   color <- lift (bar_colors colors vmin vmax tokens) ;;
   let bars :=
     map (fun ahc => mkBar (fst (fst ahc)) (snd (fst ahc)) (1 # 2)
                       (snd ahc) (8 # 10))
         (zip3 angles failureRate color) in
   top <- lift (py_max failureRate) ;;
   let ylim := (0%Q, (top * (11 # 10))%Q) in
   identifier <- lift (getitem "identifier" (df_identifier data)) ;;
   lift (set_ticklabels angles identifier) ;;;
   let yticks := arange_20 top in
   let yticklabels :=
     map (fun x => (str_nat x ++ "%")%string) (range_20 (py_int top)) in
   lift (set_ticklabels yticks yticklabels) ;;;
   let vlines := (angles, 0%Q, (top * (11 # 10))%Q) in
   let colorbar := (vmin, vmax, "Token Count (k)"%string) in
   let texts :=
     map (fun ari =>
            let angle := fst (fst ari) in
            let radius := snd (fst ari) in
            mkText angle radius
              (snd ari ++ ": " ++ format_1f radius ++ "%")%string
              (angle * 360 - 90)%Q)
         (zip3 angles failureRate identifier) in
   module <- lift (getitem "module" (df_module data)) ;;
   let table_data :=
     "Threat"%string ::
     map (fun ifm =>
            (fst (fst ifm) ++ ": " ++ snd ifm ++ " ("
             ++ format_1f (snd (fst ifm)) ++ "%)")%string)
         (zip3 identifier failureRate module) in
   let chart :=
     mkChart "#f0f0f0" bars ylim angles identifier yticks yticklabels
       vlines colorbar "Security Report for Different Modules"
       "Report generated by https://github.com/msoedov/agentic_security"
       texts (style_cells table_data) in
   let buf := mkBytesIO chart 300 AtEnd in
   plt_close fig ;;;
   let buf := seek_0 buf in
   logging_info "Report successfully generated and saved to buffer." ;;;
   ret buf)%monad.

(** [except Exception as e: logging.error(...); raise] *)
Definition plot_security_report (table : pyobj) : M BytesIO :=
  try_except (plot_security_report_body table)
    (fun e =>
       (logging_error
          ("Error in generating the security report: " ++ str_exn e)%string ;;;
        raise e)%monad).

End Renderer.

(** ** What pandas promises of the sort *)

(** The key of row [i]. *)
Definition key_at (keys : list Q) (i : nat) : Q := nth i keys 0%Q.

(** An indexer sorts [keys] in descending order when it lists every row
    position once and the keys it walks through never increase.  This is all
    that [sort_values(..., ascending=False)] promises with its default
    algorithm; the order among equal keys is left open. *)
Definition sorts_descending (keys : list Q) (indexer : list nat) : Prop :=
  Permutation indexer (seq 0 (List.length keys)) /\
  StronglySorted (fun i j => (key_at keys j <= key_at keys i)%Q) indexer.

Definition argsort_contract (argsort : list Q -> list nat) : Prop :=
  forall keys, sorts_descending keys (argsort keys).

(** A sorter that meets the contract: insertion of the row positions, from
    the first to the last, each behind the rows whose key is not smaller. *)
Fixpoint insert_by_key (keys : list Q) (i : nat) (sorted : list nat)
  : list nat :=
  match sorted with
  | [] => [i]
  | j :: rest =>
      if Qlt_le_dec (key_at keys j) (key_at keys i) then i :: sorted
      else j :: insert_by_key keys i rest
  end.

Definition insertion_argsort (keys : list Q) : list nat :=
  fold_left (fun sorted i => insert_by_key keys i sorted)
            (seq 0 (List.length keys)) [].

(** Another sorter that meets the contract: each row position is inserted in
    front of the rows whose key is not larger, so rows with equal keys come
    out in the reverse of their original order. *)
Fixpoint insert_before_ties (keys : list Q) (i : nat) (sorted : list nat)
  : list nat :=
  match sorted with
  | [] => [i]
  | j :: rest =>
      if Qlt_le_dec (key_at keys i) (key_at keys j)
      then j :: insert_before_ties keys i rest
      else i :: sorted
  end.

Definition reversing_argsort (keys : list Q) : list nat :=
  fold_left (fun sorted i => insert_before_ties keys i sorted)
            (seq 0 (List.length keys)) [].

(** The [.1f] formatting of a number given by its exact value, for where a
    concrete formatter is needed: a minus sign for a negative number, the
    integer part, a point and one decimal, the tenths being rounded to the
    nearest, a tie to the even one (as Python rounds the exact value). *)
Definition round_half_even (x : Q) : Z :=
  let floor := Qfloor x in
  match Qcompare (x - inject_Z floor) (1 # 2) with
  | Lt => floor
  | Gt => (floor + 1)%Z
  | Eq => if Z.even floor then floor else (floor + 1)%Z
  end.

Definition format_1f_exact (x : Q) : string :=
  let tenths := round_half_even (Qabs x * 10) in
  ((if Qlt_le_dec x 0 then "-"%string else ""%string)
   ++ str_nat (Z.to_nat (tenths / 10)) ++ "."
   ++ str_nat (Z.to_nat (tenths mod 10)))%string.

(** ** Notions of the specification *)

(** The identifier the specification gives to row index [i]: the
    [(i / 26)]-th capital letter, then the decimal number [(i mod 26) + 1]. *)
Definition spec_identifier (i : nat) : string :=
  String (ascii_of_nat (nat_of_ascii "A" + i / 26)) (str_nat (i mod 26 + 1)).



(** A result that is an exception of the class named [cls]. *)
Definition raises_class {A} (r : result A) (cls : string) : Prop :=
  exists e, r = Raise e /\ class_name e = cls.

Definition empty_state : state := mkState [] [].

(** ** Sample inputs *)

(** The three-row table of the specification's example. *)
Definition table_10_90_50 : Table :=
  mkTable (Some ["alpha"; "beta"; "gamma"]%string)
          (Some [10 # 1; 90 # 1; 50 # 1]%Q)
          (Some [7 # 1; 3 # 1; 5 # 1]%Q).

(** A table whose rows all carry the same token count. *)
Definition table_same_tokens : Table :=
  mkTable (Some ["alpha"; "beta"; "gamma"]%string)
          (Some [10 # 1; 90 # 1; 50 # 1]%Q)
          (Some [5 # 1; 5 # 1; 5 # 1]%Q).

(** A table without the [tokens] column. *)
Definition table_without_tokens : Table :=
  mkTable (Some ["alpha"]%string) (Some [10 # 1]%Q) None.



(** A one-row table whose failure rate is 80.5. *)
Definition table_80_5 : Table :=
  mkTable (Some ["alpha"]%string) (Some [161 # 2]%Q) (Some [5 # 1]%Q).

(** * Properties *)

(** ** The [.1f] format *)

(** One digit after the point, ties to the even digit, the sign kept. *)
Example format_1f_exact_samples :
  map format_1f_exact [90 # 1; 41 # 4; 43 # 4; 1 # 4; - (5 # 1); 3999 # 40]%Q
  = ["90.0"; "10.2"; "10.8"; "0.2"; "-5.0"; "100.0"]%string.
Proof. vm_compute. reflexivity. Qed.

(** ** The monad *)

Lemma bind_Return {A B} (m : M A) (k : A -> M B) s a s' :
  m s = (Return a, s') -> bind m k s = k a s'.
Proof. unfold bind. now intros ->. Qed.

Lemma bind_Raise {A B} (m : M A) (k : A -> M B) s e s' :
  m s = (Raise e, s') -> bind m k s = (Raise e, s').
Proof. unfold bind. now intros ->. Qed.

(** ** [generate_identifiers] *)

Lemma num_letters_26 : num_letters = 26.
Proof. reflexivity. Qed.

Lemma max_identifiers_676 : max_identifiers = 676.
Proof. reflexivity. Qed.

Lemma alphabet_get k :
  k < 26 -> String.get k alphabet = Some (ascii_of_nat (nat_of_ascii "A" + k)).
Proof.
  intros Hk.
  do 26 (destruct k as [|k]; [reflexivity|]).
  lia.
Qed.

Lemma loop_body_spec i :
  i < 676 -> loop_body i = Return (spec_identifier i).
Proof.
  intros Hi. unfold loop_body, spec_identifier.
  rewrite num_letters_26.
  assert (Hk : i / 26 < 26) by (apply Nat.Div0.div_lt_upper_bound; lia).
  destruct (Nat.leb_spec 26 (i / 26)) as [Hge|_]; [lia|].
  now rewrite (alphabet_get Hk).
Qed.

Lemma loop_spec n : forall start identifiers,
  start + n <= 676 ->
  loop (seq start n) identifiers
  = Return (identifiers ++ map spec_identifier (seq start n)).
Proof.
  induction n as [|n IH]; intros start identifiers Hle; simpl.
  - now rewrite app_nil_r.
  - rewrite loop_body_spec by lia.
    rewrite IH by lia.
    now rewrite <- app_assoc.
Qed.

Lemma str_nat_inj a b : str_nat a = str_nat b -> a = b.
Proof.
  unfold str_nat. intros H.
  apply (f_equal NilEmpty.uint_of_string) in H.
  rewrite !NilEmpty.usu in H.
  injection H as H.
  apply (f_equal Nat.of_uint) in H.
  now rewrite !DecimalNat.Unsigned.of_to in H.
Qed.

Lemma letter_inj a b :
  a < 26 -> b < 26 ->
  ascii_of_nat (nat_of_ascii "A" + a) = ascii_of_nat (nat_of_ascii "A" + b) ->
  a = b.
Proof.
  intros Ha Hb H.
  apply (f_equal nat_of_ascii) in H.
  change (nat_of_ascii "A") with 65 in H.
  rewrite !nat_ascii_embedding in H by lia.
  lia.
Qed.

Lemma spec_identifier_inj i j :
  i < 676 -> j < 676 -> spec_identifier i = spec_identifier j -> i = j.
Proof.
  intros Hi Hj H.
  pose proof (Nat.div_mod_eq i 26) as Ei.
  pose proof (Nat.div_mod_eq j 26) as Ej.
  assert (Hqi : i / 26 < 26) by (apply Nat.Div0.div_lt_upper_bound; lia).
  assert (Hqj : j / 26 < 26) by (apply Nat.Div0.div_lt_upper_bound; lia).
  unfold spec_identifier in H.
  remember (i / 26) as qi. remember (j / 26) as qj.
  remember (i mod 26) as ri. remember (j mod 26) as rj.
  injection H as Hletter Hnumber.
  apply str_nat_inj in Hnumber.
  apply (letter_inj Hqi Hqj) in Hletter.
  lia.
Qed.

Lemma spec_identifiers_NoDup n :
  n <= 676 -> NoDup (map spec_identifier (seq 0 n)).
Proof.
  intros Hn.
  apply NoDup_map_NoDup_ForallPairs; [|apply seq_NoDup].
  intros i j Hi%in_seq Hj%in_seq. apply spec_identifier_inj; lia.
Qed.

(** What the [try] block computes on a frame of an accepted length. *)
Lemma generate_identifiers_body_spec d :
  1 <= df_len d <= 676 ->
  generate_identifiers_body (PyDataFrame d)
  = Return (map spec_identifier (seq 0 (df_len d))).
Proof.
  intros [Hlo Hhi]. unfold generate_identifiers_body.
  rewrite max_identifiers_676.
  destruct (Nat.eqb_spec (df_len d) 0) as [H0|_]; [lia|].
  destruct (Nat.ltb_spec 676 (df_len d)) as [Hgt|_]; [lia|].
  unfold range. now rewrite loop_spec by lia.
Qed.

Lemma generate_identifiers_returns d s :
  1 <= df_len d <= 676 ->
  generate_identifiers (PyDataFrame d) s
  = (Return (map spec_identifier (seq 0 (df_len d))), s).
Proof.
  intros H. unfold generate_identifiers, try_except, lift.
  now rewrite generate_identifiers_body_spec.
Qed.

(** C1. For a row count N with 1 <= N <= 676, [generate_identifiers] returns
    N pairwise distinct identifiers; the one at index [i] is the
    [(i / 26)]-th capital letter followed by the decimal [(i mod 26) + 1];
    index 0 gives "A1", index 26 gives "B1" and index 675 gives "Z26". *)
Theorem generate_identifiers_correct d s :
  1 <= df_len d <= 676 ->
  exists identifiers,
    generate_identifiers (PyDataFrame d) s = (Return identifiers, s) /\
    List.length identifiers = df_len d /\
    NoDup identifiers /\
    (forall i, i < df_len d ->
               nth_error identifiers i = Some (spec_identifier i)) /\
    nth_error identifiers 0 = Some "A1"%string /\
    (26 < df_len d -> nth_error identifiers 26 = Some "B1"%string) /\
    (675 < df_len d -> nth_error identifiers 675 = Some "Z26"%string).
Proof.
  intros H.
  exists (map spec_identifier (seq 0 (df_len d))).
  assert (Hnth : forall i, i < df_len d ->
            nth_error (map spec_identifier (seq 0 (df_len d))) i
            = Some (spec_identifier i)).
  { intros i Hi. rewrite nth_error_map, nth_error_seq.
    destruct (Nat.ltb_spec i (df_len d)); [reflexivity|lia]. }
  repeat split.
  - now apply generate_identifiers_returns.
  - now rewrite length_map, length_seq.
  - apply spec_identifiers_NoDup; lia.
  - exact Hnth.
  - rewrite Hnth by lia. reflexivity.
  - intros H26. rewrite Hnth by lia. reflexivity.
  - intros H675. rewrite Hnth by lia. reflexivity.
Qed.

Lemma generate_identifiers_correct_witness :
  exists identifiers,
    generate_identifiers
      (PyDataFrame (mkDataFrame 676 None None None None)) empty_state
    = (Return identifiers, empty_state) /\
    List.length identifiers = 676 /\
    NoDup identifiers /\
    (forall i, i < 676 -> nth_error identifiers i = Some (spec_identifier i)) /\
    nth_error identifiers 0 = Some "A1"%string /\
    (26 < 676 -> nth_error identifiers 26 = Some "B1"%string) /\
    (675 < 676 -> nth_error identifiers 675 = Some "Z26"%string).
Proof.
  apply (generate_identifiers_correct
           (mkDataFrame 676 None None None None) empty_state).
  simpl. lia.
Defined.

(** The value of a call is what the [try] block computes: the handler only
    logs and raises the same exception again. *)
Lemma generate_identifiers_fst data s :
  fst (generate_identifiers data s) = generate_identifiers_body data.
Proof.
  unfold generate_identifiers, try_except, lift.
  destruct (generate_identifiers_body data) as [ids|e]; [reflexivity|].
  now destruct e.
Qed.

(** The four ways a call can end. *)
Lemma generate_identifiers_body_cases data :
  ((forall d, data <> PyDataFrame d) /\
   generate_identifiers_body data
   = Raise (TypeError "Input argument must be a pandas DataFrame.")) \/
  (exists d, data = PyDataFrame d /\ df_len d = 0 /\
     generate_identifiers_body data
     = Raise (ValueError "DataFrame cannot be empty.")) \/
  (exists d, data = PyDataFrame d /\ 676 < df_len d /\
     generate_identifiers_body data
     = Raise (OverflowError
                "Cannot generate more than 676 unique identifiers.")) \/
  (exists d, data = PyDataFrame d /\ 1 <= df_len d <= 676 /\
     generate_identifiers_body data
     = Return (map spec_identifier (seq 0 (df_len d)))).
Proof.
  destruct data as [t|d|o].
  - left. split; [discriminate|reflexivity].
  - right.
    destruct (Nat.eq_dec (df_len d) 0) as [H0|H0].
    + left. exists d. repeat split; trivial.
      unfold generate_identifiers_body. now rewrite H0.
    + right. destruct (Nat.lt_ge_cases 676 (df_len d)) as [Hgt|Hle].
      * left. exists d. repeat split; trivial.
        unfold generate_identifiers_body. rewrite max_identifiers_676.
        destruct (Nat.eqb_spec (df_len d) 0); [lia|].
        destruct (Nat.ltb_spec 676 (df_len d)); [reflexivity|lia].
      * right. exists d. repeat split; try lia.
        apply generate_identifiers_body_spec. lia.
  - left. split; [discriminate|reflexivity].
Qed.

(** C5. [generate_identifiers] fails with a [TypeError] (the spec's
    InvalidInput) exactly when its argument is not a DataFrame, with a
    [ValueError] (EmptyInput) exactly when the frame has no row, with an
    [OverflowError] (CapacityExceeded) exactly when it has more than 676
    rows, and returns exactly when the frame has between 1 and 676 rows. *)
Theorem generate_identifiers_failures data s :
  let r := fst (generate_identifiers data s) in
  (raises_class r "TypeError" <-> forall d, data <> PyDataFrame d) /\
  (raises_class r "ValueError"
   <-> exists d, data = PyDataFrame d /\ df_len d = 0) /\
  (raises_class r "OverflowError"
   <-> exists d, data = PyDataFrame d /\ 676 < df_len d) /\
  ((exists identifiers, r = Return identifiers)
   <-> exists d, data = PyDataFrame d /\ 1 <= df_len d <= 676).
Proof.
  cbv zeta. rewrite generate_identifiers_fst. unfold raises_class.
  destruct (generate_identifiers_body_cases data)
    as [[Hn E]|[(d & -> & Hd & E)|[(d & -> & Hd & E)|(d & -> & Hd & E)]]];
    rewrite E; clear E;
    (split; [|split; [|split]]); (split; intros H);
    try (exists d; split; [reflexivity|lia]);
    try (eexists; split; reflexivity);
    try (eexists; reflexivity);
    try assumption;
    try (now elim (H d));
    match type of H with
    | exists _ : exn, _ =>
        destruct H as (? & [= <-] & Hc); discriminate Hc
    | exists _ : list string, _ =>
        destruct H as (? & He); discriminate He
    | exists _ : DataFrame, _ =>
        destruct H as (? & Hd' & Hl);
        first [ injection Hd' as <-; lia | now elim (Hn _ Hd') ]
    end.
Qed.

(** C9. Two calls on frames of the same length give the same result,
    whatever the state (log, open figures) either call starts from, and a
    call that returns identifiers leaves the state as it found it. *)
Theorem generate_identifiers_pure d1 d2 s1 s2 :
  df_len d1 = df_len d2 ->
  fst (generate_identifiers (PyDataFrame d1) s1)
  = fst (generate_identifiers (PyDataFrame d2) s2) /\
  (forall identifiers,
      fst (generate_identifiers (PyDataFrame d1) s1) = Return identifiers ->
      snd (generate_identifiers (PyDataFrame d1) s1) = s1).
Proof.
  intros Hlen. split.
  - rewrite !generate_identifiers_fst. unfold generate_identifiers_body.
    now rewrite Hlen.
  - intros ids. unfold generate_identifiers, try_except, lift.
    destruct (generate_identifiers_body (PyDataFrame d1)) as [ids'|e].
    + reflexivity.
    + destruct e; discriminate.
Qed.

Lemma generate_identifiers_pure_witness :
  fst (generate_identifiers
         (PyDataFrame (mkDataFrame 2 None (Some [1#1; 2#1]%Q) None None))
         empty_state)
  = fst (generate_identifiers
           (PyDataFrame (mkDataFrame 2 (Some ["a"; "b"]%string) None None None))
           (mkState [(INFO, "earlier"%string)] [4])) /\
  (forall identifiers,
      fst (generate_identifiers
             (PyDataFrame (mkDataFrame 2 None (Some [1#1; 2#1]%Q) None None))
             empty_state) = Return identifiers ->
      snd (generate_identifiers
             (PyDataFrame (mkDataFrame 2 None (Some [1#1; 2#1]%Q) None None))
             empty_state) = empty_state).
Proof.
  apply (generate_identifiers_pure
           (mkDataFrame 2 None (Some [1#1; 2#1]%Q) None None)
           (mkDataFrame 2 (Some ["a"; "b"]%string) None None None)
           empty_state (mkState [(INFO, "earlier"%string)] [4])).
  reflexivity.
Defined.

(** C10. On a frame that has passed the emptiness and capacity checks
    (1 <= length <= 676), every iteration of the loop has
    [i / 26 < 26]: the guard never fires, and neither the loop nor the
    call raises an [IndexError]. *)
Theorem index_guard_unreachable d s :
  1 <= df_len d <= 676 ->
  (forall i, In i (range (df_len d)) -> i / num_letters < num_letters) /\
  (forall msg, loop (range (df_len d)) [] <> Raise (IndexError msg)) /\
  (forall msg,
      fst (generate_identifiers (PyDataFrame d) s) <> Raise (IndexError msg)).
Proof.
  intros H. repeat split.
  - intros i Hi%in_seq. rewrite num_letters_26.
    apply Nat.Div0.div_lt_upper_bound. lia.
  - intros msg. unfold range. rewrite loop_spec by lia. discriminate.
  - intros msg. rewrite generate_identifiers_fst.
    rewrite generate_identifiers_body_spec by exact H. discriminate.
Qed.

Lemma index_guard_unreachable_witness :
  (forall i, In i (range 676) -> i / num_letters < num_letters) /\
  (forall msg, loop (range 676) [] <> Raise (IndexError msg)) /\
  (forall msg,
      fst (generate_identifiers
             (PyDataFrame (mkDataFrame 676 None None None None)) empty_state)
      <> Raise (IndexError msg)).
Proof.
  apply (index_guard_unreachable
           (mkDataFrame 676 None None None None) empty_state).
  simpl. lia.
Defined.

(** ** The insertion sorter meets the contract of the sort *)

Lemma insert_by_key_Permutation keys i sorted :
  Permutation (insert_by_key keys i sorted) (i :: sorted).
Proof.
  induction sorted as [|j rest IH]; simpl.
  - reflexivity.
  - destruct (Qlt_le_dec (key_at keys j) (key_at keys i)).
    + reflexivity.
    + rewrite IH. apply perm_swap.
Qed.

Lemma insert_by_key_sorted keys i sorted :
  StronglySorted (fun a b => (key_at keys b <= key_at keys a)%Q) sorted ->
  StronglySorted (fun a b => (key_at keys b <= key_at keys a)%Q)
                 (insert_by_key keys i sorted).
Proof.
  induction sorted as [|j rest IH]; simpl; intros Hs.
  - constructor; constructor.
  - apply StronglySorted_inv in Hs as [Hrest Hj].
    destruct (Qlt_le_dec (key_at keys j) (key_at keys i)) as [Hlt|Hle].
    + constructor; [constructor; assumption|].
      constructor; [now apply Qlt_le_weak|].
      eapply Forall_impl; [|exact Hj].
      intros a Ha. simpl in Ha.
      apply Qle_trans with (key_at keys j); [exact Ha|now apply Qlt_le_weak].
    + constructor; [now apply IH|].
      apply (Permutation_Forall
               (Permutation_sym (insert_by_key_Permutation keys i rest))).
      now constructor.
Qed.

Lemma fold_insert_Permutation keys positions : forall sorted,
  Permutation
    (fold_left (fun acc i => insert_by_key keys i acc) positions sorted)
    (positions ++ sorted).
Proof.
  induction positions as [|i rest IH]; intros sorted; simpl.
  - reflexivity.
  - rewrite IH, insert_by_key_Permutation.
    symmetry. apply Permutation_middle.
Qed.

Lemma fold_insert_sorted keys positions : forall sorted,
  StronglySorted (fun a b => (key_at keys b <= key_at keys a)%Q) sorted ->
  StronglySorted (fun a b => (key_at keys b <= key_at keys a)%Q)
    (fold_left (fun acc i => insert_by_key keys i acc) positions sorted).
Proof.
  induction positions as [|i rest IH]; intros sorted Hs; simpl.
  - exact Hs.
  - apply IH. now apply insert_by_key_sorted.
Qed.

Lemma insertion_argsort_contract : argsort_contract insertion_argsort.
Proof.
  intros keys. unfold insertion_argsort. split.
  - rewrite fold_insert_Permutation. now rewrite app_nil_r.
  - apply fold_insert_sorted. constructor.
Qed.

(** ** Running the monad backwards *)

Lemma bind_Return_inv {A B} (m : M A) (k : A -> M B) s b s' :
  bind m k s = (Return b, s') ->
  exists a s1, m s = (Return a, s1) /\ k a s1 = (Return b, s').
Proof.
  unfold bind. destruct (m s) as [[a|e] s1]; intros H.
  - now exists a, s1.
  - discriminate.
Qed.

Lemma bind_Raise_inv {A B} (m : M A) (k : A -> M B) s e s' :
  bind m k s = (Raise e, s') ->
  m s = (Raise e, s') \/
  exists a s1, m s = (Return a, s1) /\ k a s1 = (Raise e, s').
Proof.
  unfold bind. destruct (m s) as [[a|e1] s1]; intros H.
  - right. now exists a, s1.
  - left. now injection H as -> ->.
Qed.

Lemma lift_inv {A} (r : result A) s r' s' :
  lift r s = (r', s') -> r = r' /\ s' = s.
Proof. unfold lift. now intros [= -> ->]. Qed.

Lemma generate_identifiers_Return_inv data s identifiers s' :
  generate_identifiers data s = (Return identifiers, s') ->
  exists d,
    data = PyDataFrame d /\ 1 <= df_len d <= 676 /\
    identifiers = map spec_identifier (seq 0 (df_len d)) /\ s' = s.
Proof.
  unfold generate_identifiers, try_except, lift.
  destruct (generate_identifiers_body_cases data)
    as [[_ E]|[(d & _ & _ & E)|[(d & _ & _ & E)|(d & -> & Hd & E)]]];
    rewrite E; simpl; try discriminate.
  intros [= <- <-]. now exists d.
Qed.

(** ** The library calls *)

Lemma pd_DataFrame_inv t d :
  pd_DataFrame t = Return d ->
  df_module d = t_module t /\
  df_failureRate d = t_failureRate t /\
  df_tokens d = t_tokens t /\
  Forall (fun n => n = df_len d) (column_lengths t).
Proof.
  unfold pd_DataFrame.
  destruct (column_lengths t) as [|n ns] eqn:Hlen.
  - intros [= <-]. simpl.
    unfold column_lengths in Hlen.
    destruct (t_module t), (t_failureRate t), (t_tokens t);
      try discriminate Hlen.
    repeat split; constructor.
  - destruct (forallb (Nat.eqb n) ns) eqn:Hall; [|discriminate].
    intros [= <-]. simpl. repeat split.
    constructor; [reflexivity|].
    apply Forall_forall. intros k Hk.
    rewrite forallb_forall in Hall.
    symmetry. now apply Nat.eqb_eq, Hall.
Qed.

Lemma fold_max_spec rest : forall x,
  let m := fold_left (fun m y => if Qlt_le_dec m y then y else m) rest x in
  In m (x :: rest) /\ forall y, In y (x :: rest) -> (y <= m)%Q.
Proof.
  induction rest as [|z rest IH]; intros x; cbv zeta; simpl.
  - split; [now left|]. intros y [<-|[]]. apply Qle_refl.
  - destruct (Qlt_le_dec x z) as [Hlt|Hle];
      destruct (IH (if Qlt_le_dec x z then z else x)) as [Hin Hmax];
      destruct (Qlt_le_dec x z) as [Hlt'|Hle'];
      try (exfalso; eapply Qlt_not_le; eassumption).
    + split; [now right|].
      intros y [<-|Hy]; [|now apply Hmax].
      apply Qle_trans with z; [now apply Qlt_le_weak|].
      apply Hmax. now left.
    + split; [destruct Hin as [<-|Hin]; [now left|now right; right]|].
      intros y [<-|[<-|Hy]].
      * apply Hmax. now left.
      * apply Qle_trans with x; [exact Hle|]. apply Hmax. now left.
      * apply Hmax. now right.
Qed.

Lemma fold_min_spec rest : forall x,
  let m := fold_left (fun m y => if Qlt_le_dec y m then y else m) rest x in
  In m (x :: rest) /\ forall y, In y (x :: rest) -> (m <= y)%Q.
Proof.
  induction rest as [|z rest IH]; intros x; cbv zeta; simpl.
  - split; [now left|]. intros y [<-|[]]. apply Qle_refl.
  - destruct (Qlt_le_dec z x) as [Hlt|Hle];
      destruct (IH (if Qlt_le_dec z x then z else x)) as [Hin Hmin];
      destruct (Qlt_le_dec z x) as [Hlt'|Hle'];
      try (exfalso; eapply Qlt_not_le; eassumption).
    + split; [now right|].
      intros y [<-|Hy]; [|now apply Hmin].
      apply Qle_trans with z; [|now apply Qlt_le_weak].
      apply Hmin. now left.
    + split; [destruct Hin as [<-|Hin]; [now left|now right; right]|].
      intros y [<-|[<-|Hy]].
      * apply Hmin. now left.
      * apply Qle_trans with x; [|exact Hle]. apply Hmin. now left.
      * apply Hmin. now right.
Qed.

(** [max(xs)] is an item of [xs] that no item exceeds. *)
Lemma py_max_spec xs top :
  py_max xs = Return top ->
  In top xs /\ forall y, In y xs -> (y <= top)%Q.
Proof.
  destruct xs as [|x rest]; [discriminate|].
  intros [= <-]. apply fold_max_spec.
Qed.

Lemma py_max_nonempty xs :
  xs <> [] -> exists top, py_max xs = Return top.
Proof. destruct xs; [congruence|]. intros _. eexists. reflexivity. Qed.

Lemma series_min_spec xs :
  xs <> [] ->
  In (series_min xs) xs /\ forall y, In y xs -> (series_min xs <= y)%Q.
Proof. destruct xs as [|x rest]; [congruence|]. intros _. apply fold_min_spec. Qed.

Lemma series_max_spec xs :
  xs <> [] ->
  In (series_max xs) xs /\ forall y, In y xs -> (y <= series_max xs)%Q.
Proof. destruct xs as [|x rest]; [congruence|]. intros _. apply fold_max_spec. Qed.

Lemma series_min_le_max xs : (series_min xs <= series_max xs)%Q.
Proof.
  destruct xs as [|x rest].
  - apply Qle_refl.
  - assert (Hne : x :: rest <> []) by discriminate.
    apply (series_min_spec Hne), (series_max_spec Hne).
Qed.

(** [Normalize] with equal bounds maps every value to 0, without dividing. *)
Lemma Normalize_constant vmin vmax x :
  (vmin == vmax)%Q -> Normalize vmin vmax x = Return 0%Q.
Proof.
  intros H. unfold Normalize.
  now apply Qeq_bool_iff in H as ->.
Qed.

Lemma true_divide_defined a b :
  ~ (b == 0)%Q -> true_divide a b = Return (a / b)%Q.
Proof.
  intros H. unfold true_divide.
  destruct (Qeq_bool b 0) eqn:E; [|reflexivity].
  now apply Qeq_bool_iff in E.
Qed.

(** Whatever its bounds, [Normalize] never divides by zero. *)
Lemma Normalize_no_zero_division vmin vmax x msg :
  Normalize vmin vmax x <> Raise (ZeroDivisionError msg).
Proof.
  unfold Normalize.
  destruct (Qeq_bool vmin vmax) eqn:E; [discriminate|].
  destruct (Qle_bool vmin vmax); [|discriminate].
  rewrite true_divide_defined; [discriminate|].
  intros H. apply Qeq_bool_neq in E. apply E. lra.
Qed.

Lemma Normalize_defined vmin vmax x :
  (vmin <= vmax)%Q -> exists y, Normalize vmin vmax x = Return y.
Proof.
  intros Hle. unfold Normalize.
  destruct (Qeq_bool vmin vmax) eqn:E; [now eexists|].
  apply Qle_bool_iff in Hle as ->.
  rewrite true_divide_defined; [now eexists|].
  intros H. apply Qeq_bool_neq in E. apply E. lra.
Qed.

Lemma bar_colors_constant stops vmin vmax tokens :
  (vmin == vmax)%Q ->
  bar_colors stops vmin vmax tokens
  = Return (map (fun _ => mkColor stops 256 0%Q) tokens).
Proof.
  intros H. induction tokens as [|t rest IH]; simpl.
  - reflexivity.
  - now rewrite (Normalize_constant t H), IH.
Qed.

Lemma bar_colors_defined stops vmin vmax tokens :
  (vmin <= vmax)%Q ->
  exists color,
    bar_colors stops vmin vmax tokens = Return color /\
    List.length color = List.length tokens.
Proof.
  intros H. induction tokens as [|t rest (color & IH & Hlen)]; simpl.
  - now exists [].
  - destruct (Normalize_defined t H) as (y & ->). rewrite IH. simpl.
    eexists. split; [reflexivity|]. simpl. now rewrite Hlen.
Qed.

Lemma bar_colors_no_zero_division stops vmin vmax tokens msg :
  bar_colors stops vmin vmax tokens <> Raise (ZeroDivisionError msg).
Proof.
  induction tokens as [|t rest IH]; simpl; [discriminate|].
  pose proof (@Normalize_no_zero_division vmin vmax t msg) as Hn.
  destruct (Normalize vmin vmax t) as [y|e]; simpl; [|congruence].
  destruct (bar_colors stops vmin vmax rest) as [cs|e]; simpl;
    [discriminate|congruence].
Qed.

Lemma zip3_In {A B C} (xs : list A) (ys : list B) (zs : list C) x y z :
  In (x, y, z) (zip3 xs ys zs) -> In x xs /\ In y ys /\ In z zs.
Proof.
  revert ys zs.
  induction xs as [|x' xs IH]; intros [|y' ys] [|z' zs]; simpl; try tauto.
  intros [[= -> -> ->]|H]; [tauto|].
  apply IH in H. tauto.
Qed.

Lemma zip3_heights {A B C} (xs : list A) (ys : list B) (zs : list C) :
  List.length xs = List.length ys -> List.length zs = List.length ys ->
  map (fun xyz => snd (fst xyz)) (zip3 xs ys zs) = ys.
Proof.
  revert ys zs.
  induction xs as [|x xs IH]; intros [|y ys] [|z zs]; simpl;
    try discriminate; try reflexivity.
  intros [= Hx] [= Hz]. now rewrite IH.
Qed.

(** The ticks of [np.arange(0, top, 20)] are the multiples of 20 from 0 that
    are strictly below [top]. *)
Lemma arange_20_count top k :
  k < Z.to_nat (Qceiling (top / 20)) <->
  (inject_Z (20 * Z.of_nat k) < top)%Q.
Proof.
  rewrite inject_Z_mult.
  pose proof (Qle_ceiling (top / 20)) as Hle.
  pose proof (Qceiling_lt (top / 20)) as Hlt.
  set (c := Qceiling (top / 20)) in *.
  assert (Hdiv : (top / 20 * 20 == top)%Q) by (field; discriminate).
  split; intros H.
  - assert (Hk : (Z.of_nat k <= c - 1)%Z) by lia.
    rewrite Zle_Qle in Hk.
    change (inject_Z 20) with 20%Q. lra.
  - assert (Hk : (inject_Z (Z.of_nat k) < inject_Z c)%Q).
    { change (inject_Z 20) with 20%Q in H. lra. }
    rewrite <- Zlt_Qlt in Hk. lia.
Qed.

Lemma range_20_count stop k :
  k < Z.to_nat ((stop + 19) / 20) <-> (20 * Z.of_nat k < stop)%Z.
Proof.
  pose proof (Z.div_mod (stop + 19) 20 ltac:(lia)) as Hdm.
  pose proof (Z.mod_pos_bound (stop + 19) 20 ltac:(lia)) as Hr.
  set (q := ((stop + 19) / 20)%Z) in *.
  set (r := ((stop + 19) mod 20)%Z) in *.
  lia.
Qed.

Lemma py_int_whole x z : (x == inject_Z z)%Q -> py_int x = z.
Proof.
  destruct x as [n d]. unfold Qeq, py_int. simpl.
  intros H. rewrite Z.mul_1_r in H. subst n.
  apply Z.quot_mul. discriminate.
Qed.

Lemma count_unique n1 n2 :
  (forall k, k < n1 <-> k < n2) -> n1 = n2.
Proof.
  intros H.
  destruct (Nat.lt_trichotomy n1 n2) as [Hlt|[Heq|Hgt]]; [|exact Heq|].
  - apply H in Hlt. lia.
  - apply H in Hgt. lia.
Qed.

Lemma take_column_all {A} (default : A) (c : list A) :
  take_column default (seq 0 (List.length c)) c = c.
Proof.
  unfold take_column.
  apply nth_ext with (d := default) (d' := default).
  - now rewrite length_map, length_seq.
  - intros i Hi. rewrite length_map, length_seq in Hi.
    rewrite (nth_indep _ _ (nth 0 c default)) by now rewrite length_map, length_seq.
    rewrite (map_nth (fun i => nth i c default)).
    now rewrite seq_nth.
Qed.

Lemma take_column_Permutation {A} (default : A) indexer (c : list A) :
  Permutation indexer (seq 0 (List.length c)) ->
  Permutation (take_column default indexer c) c.
Proof.
  intros H.
  rewrite <- (take_column_all default c) at 2.
  unfold take_column. now apply Permutation_map.
Qed.

Lemma linspace_turns_len n : List.length (linspace_turns n) = n.
Proof. unfold linspace_turns. now rewrite length_map, length_seq. Qed.

(** [set_ticklabels] accepts the labels exactly when there are none or as
    many as tick locations. *)
Lemma set_ticklabels_Return {A} (ticks : list A) labels :
  set_ticklabels ticks labels = Return tt <->
  labels = [] \/ List.length ticks = List.length labels.
Proof.
  unfold set_ticklabels.
  destruct (Nat.eqb_spec (List.length labels) 0) as [H0|H0]; simpl.
  - split; [|reflexivity]. intros _. left. now apply length_zero_iff_nil.
  - destruct (Nat.eqb_spec (List.length ticks) (List.length labels))
      as [He|He]; simpl.
    + split; [|reflexivity]. intros _. now right.
    + split; [discriminate|].
      intros [->|H]; [now elim H0|now elim He].
Qed.

Lemma py_int_floor x : (0 <= x)%Q -> py_int x = Qfloor x.
Proof.
  destruct x as [n d]. unfold Qle, py_int, Qfloor. simpl. intros H.
  apply Z.quot_div_nonneg; lia.
Qed.

Lemma py_int_pos x : (1 <= x)%Q -> (1 <= py_int x)%Z.
Proof.
  intros H. rewrite py_int_floor by lra.
  destruct x as [n d]. unfold Qle in H. unfold Qfloor. simpl in *.
  apply Z.div_le_lower_bound; lia.
Qed.

Lemma py_int_small x : (x < 1)%Q -> (py_int x <= 0)%Z.
Proof.
  destruct x as [n d]. unfold Qlt, py_int. simpl. intros H.
  destruct (Z.le_gt_cases 0 n) as [Hn|Hn].
  - rewrite Z.quot_small; lia.
  - rewrite <- (Z.opp_involutive n), Z.quot_opp_l by discriminate.
    pose proof (Z.quot_pos (- n) (Z.pos d) ltac:(lia) ltac:(lia)). lia.
Qed.

(** The labels of [range(0, int(top), 20)]: none below 1, at least the one
    of 0 from 1 on. *)
Lemma range_20_small x : (x < 1)%Q -> range_20 (py_int x) = [].
Proof.
  intros H%py_int_small. unfold range_20.
  pose proof (Z.div_lt_upper_bound (py_int x + 19) 20 1 ltac:(lia) ltac:(lia))
    as Hlt.
  replace (Z.to_nat ((py_int x + 19) / 20)) with 0 by lia.
  reflexivity.
Qed.



(** For a largest value of 1 or more, a multiple of 20 is below it exactly
    when it is below its integer part, unless the value is not whole and
    its integer part is itself a multiple of 20. *)
Lemma below_floor top k :
  (top == inject_Z (Qfloor top))%Q \/ (Qfloor top mod 20 <> 0)%Z ->
  (inject_Z (20 * Z.of_nat k) < top)%Q <->
  (20 * Z.of_nat k < Qfloor top)%Z.
Proof.
  intros Hcond.
  pose proof (Qfloor_le top) as Hle. pose proof (Qlt_floor top) as Hlt.
  destruct Hcond as [Hwhole|Hmod].
  - rewrite Hwhole at 1. now rewrite <- Zlt_Qlt.
  - split; intros H.
    + assert (Hk : (inject_Z (20 * Z.of_nat k) < inject_Z (Qfloor top + 1))%Q)
        by lra.
      rewrite <- Zlt_Qlt in Hk.
      assert (Hne : (20 * Z.of_nat k <> Qfloor top)%Z).
      { intros E. apply Hmod. rewrite <- E, Z.mul_comm. apply Z_mod_mult. }
      lia.
    + rewrite Zlt_Qlt in H. lra.
Qed.

(** [set_yticklabels] accepts the labels of [range(0, int(top), 20)] for the
    gridlines of [np.arange(0, top, 20)] exactly when [top] is below 1 (no
    label), or whole, or has an integer part that is no multiple of 20. *)
Lemma yticklabels_accepted_iff top :
  set_ticklabels (arange_20 top)
    (map (fun x => (str_nat x ++ "%")%string) (range_20 (py_int top)))
  = Return tt
  <->
  ((top < 1)%Q \/ (top == inject_Z (Qfloor top))%Q
   \/ (Qfloor top mod 20 <> 0)%Z).
Proof.
  rewrite set_ticklabels_Return.
  destruct (Qlt_le_dec top 1) as [Hlt|Hge].
  { split; intros _; [now left|].
    left. now rewrite range_20_small. }
  assert (Hfloor : py_int top = Qfloor top) by (apply py_int_floor; lra).
  unfold arange_20, range_20. rewrite !length_map, !length_seq, Hfloor.
  split.
  - intros [Hnil|Hlen].
    { apply map_eq_nil, map_eq_nil in Hnil.
      assert (Hc : 0 < Z.to_nat ((Qfloor top + 19) / 20)).
      { apply range_20_count. rewrite <- Hfloor.
        pose proof (py_int_pos Hge). lia. }
      destruct (Z.to_nat ((Qfloor top + 19) / 20)); [lia|discriminate]. }
    right.
    destruct (Qeq_dec top (inject_Z (Qfloor top))) as [Hw|Hw]; [now left|].
    destruct (Z.eq_dec (Qfloor top mod 20) 0) as [Hm|Hm]; [|now right].
    exfalso.
    assert (Hpos : (1 <= Qfloor top)%Z)
      by (rewrite <- Hfloor; now apply py_int_pos).
    set (k := Z.to_nat (Qfloor top / 20)).
    assert (Hk : (20 * Z.of_nat k = Qfloor top)%Z).
    { unfold k. rewrite Z2Nat.id by (apply Z.div_pos; lia).
      symmetry. apply Z.div_exact; [lia|exact Hm]. }
    assert (Hbelow : (inject_Z (20 * Z.of_nat k) < top)%Q).
    { rewrite Hk. pose proof (Qfloor_le top) as Hle.
      destruct (Qlt_le_dec (inject_Z (Qfloor top)) top) as [Hl|Hg];
        [exact Hl|].
      exfalso. apply Hw. now apply Qle_antisym. }
    apply arange_20_count in Hbelow. rewrite Hlen in Hbelow.
    apply range_20_count in Hbelow. lia.
  - intros [Hlt|Hcond]; [lra|]. right.
    apply count_unique. intros k.
    rewrite arange_20_count, range_20_count.
    now apply below_floor.
Qed.

(** ** [plot_security_report] *)

Section RendererFacts.

Variable argsort : list Q -> list nat.
Variable format_1f : Q -> string.


(** The handler logs and raises the same exception again: the value of a
    call is the value of the [try] block. *)
Lemma plot_security_report_fst table s :
  fst (plot_security_report argsort format_1f table s)
  = fst (plot_security_report_body argsort format_1f table s).
Proof.
  unfold plot_security_report, try_except.
  now destruct (plot_security_report_body argsort format_1f table s) as [[buf|e] s1].
Qed.

Lemma plot_security_report_Return_body table s buf s' :
  plot_security_report argsort format_1f table s = (Return buf, s')
  <-> plot_security_report_body argsort format_1f table s = (Return buf, s').
Proof.
  unfold plot_security_report, try_except.
  destruct (plot_security_report_body argsort format_1f table s) as [[b|e] s1]; [tauto|].
  split; discriminate.
Qed.

Lemma figure_released registry :
  filter (fun k => negb (k =? S (fold_right Nat.max 0 registry)))
         (registry ++ [S (fold_right Nat.max 0 registry)])
  = registry.
Proof.
  assert (Hbound : forall k, In k registry ->
                             k <= fold_right Nat.max 0 registry).
  { induction registry as [|x r IH]; simpl; [tauto|].
    intros k [->|Hk]; [lia|]. specialize (IH k Hk). lia. }
  rewrite filter_app. simpl. rewrite Nat.eqb_refl. simpl.
  rewrite app_nil_r.
  apply forallb_filter_id. apply forallb_forall.
  intros k Hk. specialize (Hbound k Hk).
  destruct (Nat.eqb_spec k (S (fold_right Nat.max 0 registry))); [lia|reflexivity].
Qed.

(** What a call that returns has gone through, and what it returns. *)
Lemma plot_security_report_Return table s buf s' :
  plot_security_report argsort format_1f table s = (Return buf, s') ->
  exists t d keys tokens0 module0 top color,
    table = PyTable t /\
    pd_DataFrame t = Return d /\
    df_failureRate d = Some keys /\
    df_tokens d = Some tokens0 /\
    df_module d = Some module0 /\
    let indexer := argsort keys in
    let n := List.length indexer in
    let failureRate := take_column 0%Q indexer keys in
    let tokens := take_column 0%Q indexer tokens0 in
    let module := take_column EmptyString indexer module0 in
    let identifier := map spec_identifier (seq 0 n) in
    let colors := rev ["#6C5B7B"; "#C06C84"; "#F67280"; "#F8B195"]%string in
    let angles := linspace_turns n in
    1 <= n <= 676 /\
    py_max failureRate = Return top /\
    bar_colors colors (series_min tokens) (series_max tokens) tokens
    = Return color /\
    png_of buf
    = mkChart "#f0f0f0"
        (map (fun ahc => mkBar (fst (fst ahc)) (snd (fst ahc)) (1 # 2)
                           (snd ahc) (8 # 10))
             (zip3 angles failureRate color))
        (0%Q, (top * (11 # 10))%Q)
        angles identifier
        (arange_20 top)
        (map (fun x => (str_nat x ++ "%")%string) (range_20 (py_int top)))
        (angles, 0%Q, (top * (11 # 10))%Q)
        (series_min tokens, series_max tokens, "Token Count (k)"%string)
        "Security Report for Different Modules"
        "Report generated by https://github.com/msoedov/agentic_security"
        (map (fun ari =>
                mkText (fst (fst ari)) (snd (fst ari))
                  (snd ari ++ ": " ++ format_1f (snd (fst ari)) ++ "%")%string
                  (fst (fst ari) * 360 - 90)%Q)
             (zip3 angles failureRate identifier))
        (style_cells
           ("Threat"%string ::
            map (fun ifm =>
                   (fst (fst ifm) ++ ": " ++ snd ifm ++ " ("
                    ++ format_1f (snd (fst ifm)) ++ "%)")%string)
                (zip3 identifier failureRate module))) /\
    dpi buf = 300 /\
    tell buf = AtStart /\
    figures s' = figures s /\
    set_ticklabels (arange_20 top)
      (map (fun x => (str_nat x ++ "%")%string) (range_20 (py_int top)))
    = Return tt.
Proof.
  intros H%plot_security_report_Return_body.
  unfold plot_security_report_body in H.
  apply bind_Return_inv in H as (t & s1 & Ht & H).
  destruct table as [t0|d0|o]; try discriminate Ht.
  injection Ht as <- <-.
  apply bind_Return_inv in H as ([] & s2 & Hlog1 & H).
  apply bind_Return_inv in H as (d & s3 & [Hd ->]%lift_inv & H).
  apply bind_Return_inv in H as (d1 & s4 & [Hsort ->]%lift_inv & H).
  apply bind_Return_inv in H as (ids & s5 & Hids & H).
  apply bind_Return_inv in H as (fig & s6 & Hfig & H).
  apply bind_Return_inv in H as ([] & s7 & Hlog2 & H).
  apply bind_Return_inv in H as (tokens & s8 & [Htok ->]%lift_inv & H).
  apply bind_Return_inv in H as (fr & s9 & [Hfr ->]%lift_inv & H).
  apply bind_Return_inv in H as (color & s10 & [Hcol ->]%lift_inv & H).
  apply bind_Return_inv in H as (top & s11 & [Htop ->]%lift_inv & H).
  apply bind_Return_inv in H as (ident & s12 & [Hident ->]%lift_inv & H).
  apply bind_Return_inv in H as ([] & ? & [_ ->]%lift_inv & H).
  apply bind_Return_inv in H as ([] & ? & [Hlabels ->]%lift_inv & H).
  apply bind_Return_inv in H as (module & s13 & [Hmod ->]%lift_inv & H).
  apply bind_Return_inv in H as ([] & s14 & Hclose & H).
  apply bind_Return_inv in H as ([] & s15 & Hlog3 & H).
  unfold sort_values in Hsort.
  destruct (df_failureRate d) as [keys|] eqn:Hkeys; [|discriminate].
  injection Hsort as <-.
  apply generate_identifiers_Return_inv in Hids as (d1 & [= <-] & Hn & -> & ->).
  simpl in Htok, Hfr, Hident, Hmod, Hn, H.
  rewrite Hkeys in Hfr. simpl in Hfr. injection Hfr as <-.
  destruct (df_tokens d) as [tokens0|] eqn:Htokens0; [|discriminate].
  simpl in Htok. injection Htok as <-.
  destruct (df_module d) as [module0|] eqn:Hmodule0; [|discriminate].
  simpl in Hmod. injection Hmod as <-.
  injection Hident as <-.
  injection H as <- <-.
  exists t0, d, keys, tokens0, module0, top, color.
  cbv zeta. repeat split; try assumption; try reflexivity; try lia.
  unfold logging_info, logging in Hlog1, Hlog2, Hlog3.
  unfold plt_subplots in Hfig. unfold plt_close in Hclose.
  injection Hlog1 as <-. injection Hfig as <- <-.
  injection Hlog2 as <-. injection Hclose as <-. injection Hlog3 as <-.
  simpl. apply figure_released.
Qed.

(** From here on the sort is assumed to keep its promise. *)
Hypothesis argsort_sorts : argsort_contract argsort.

Lemma argsort_length keys :
  List.length (argsort keys) = List.length keys.
Proof.
  destruct (argsort_sorts keys) as [Hperm _].
  apply Permutation_length in Hperm. now rewrite length_seq in Hperm.
Qed.

Lemma sorted_column_Permutation {A} (default : A) keys (c : list A) :
  List.length c = List.length keys ->
  Permutation (take_column default (argsort keys) c) c.
Proof.
  intros Hlen. apply take_column_Permutation.
  rewrite Hlen. apply argsort_sorts.
Qed.


(** The exceptions that can leave the [try] block are those of its own
    steps: built-in classes only. *)
Lemma plot_security_report_body_raises table s e s' :
  plot_security_report_body argsort format_1f table s = (Raise e, s') ->
  In (class_name e)
     ["TypeError"; "ValueError"; "OverflowError"; "KeyError"]%string.
Proof.
  intros H. unfold plot_security_report_body in H.
  apply bind_Raise_inv in H as [H|(t & s1 & _ & H)].
  { destruct table; inversion H; subst; simpl; tauto. }
  apply bind_Raise_inv in H as [H|([] & s2 & _ & H)]; [discriminate H|].
  apply bind_Raise_inv in H as [[H _]%lift_inv|(d & s3 & _ & H)].
  { unfold pd_DataFrame in H.
    destruct (column_lengths t) as [|n ns]; [discriminate|].
    destruct (forallb (Nat.eqb n) ns); [discriminate|].
    injection H as <-. simpl. tauto. }
  apply bind_Raise_inv in H as [[H _]%lift_inv|(d1 & s4 & _ & H)].
  { unfold sort_values in H.
    destruct (df_failureRate d); [discriminate|].
    injection H as <-. simpl. tauto. }
  apply bind_Raise_inv in H as [H|(ids & s5 & _ & H)].
  { apply (f_equal fst) in H. rewrite generate_identifiers_fst in H.
    cbn [fst] in H.
    destruct (generate_identifiers_body_cases (PyDataFrame d1))
      as [[_ E]|[(? & _ & _ & E)|[(? & _ & _ & E)|(? & _ & _ & E)]]];
      rewrite E in H; try discriminate H;
      injection H as <-; simpl; tauto. }
  apply bind_Raise_inv in H as [H|(fig & s6 & _ & H)]; [discriminate H|].
  apply bind_Raise_inv in H as [H|([] & s7 & _ & H)]; [discriminate H|].
  apply bind_Raise_inv in H as [[H _]%lift_inv|(tokens & s8 & _ & H)].
  { destruct (df_tokens _); [discriminate|].
    injection H as <-. simpl. tauto. }
  apply bind_Raise_inv in H as [[H _]%lift_inv|(fr & s9 & _ & H)].
  { destruct (df_failureRate _); [discriminate|].
    injection H as <-. simpl. tauto. }
  apply bind_Raise_inv in H as [[H _]%lift_inv|(color & s10 & _ & H)].
  { pose proof (series_min_le_max tokens) as Hle.
    destruct (bar_colors_defined
                (rev ["#6C5B7B"; "#C06C84"; "#F67280"; "#F8B195"]%string)
                tokens Hle) as (c & Hc & _).
    rewrite Hc in H. discriminate H. }
  apply bind_Raise_inv in H as [[H _]%lift_inv|(top & s11 & _ & H)].
  { destruct fr; [|discriminate]. injection H as <-. simpl. tauto. }
  apply bind_Raise_inv in H as [[H _]%lift_inv|(ident & s12 & _ & H)].
  { discriminate H. }
  apply bind_Raise_inv in H as [[H _]%lift_inv|([] & ? & _ & H)].
  { unfold set_ticklabels in H.
    destruct (_ && _); [|discriminate]. injection H as <-. simpl. tauto. }
  apply bind_Raise_inv in H as [[H _]%lift_inv|([] & ? & _ & H)].
  { unfold set_ticklabels in H.
    destruct (_ && _); [|discriminate]. injection H as <-. simpl. tauto. }
  apply bind_Raise_inv in H as [[H _]%lift_inv|(module & s13 & _ & H)].
  { destruct (df_module _); [discriminate|].
    injection H as <-. simpl. tauto. }
  apply bind_Raise_inv in H as [H|([] & s14 & _ & H)]; [discriminate H|].
  apply bind_Raise_inv in H as [H|([] & s15 & _ & H)]; [discriminate H|].
  discriminate H.
Qed.


(** A table whose three columns are present, of one length between 1 and
    676, and whose largest failureRate gives as many labels as gridlines (or
    no label), is rendered. *)
Lemma plot_security_report_renders t s keys tokens0 module0 :
  t_module t = Some module0 ->
  t_failureRate t = Some keys ->
  t_tokens t = Some tokens0 ->
  List.length module0 = List.length keys ->
  List.length tokens0 = List.length keys ->
  1 <= List.length keys <= 676 ->
  (forall top,
      In top keys -> (forall x, In x keys -> (x <= top)%Q) ->
      (top < 1)%Q \/ (top == inject_Z (Qfloor top))%Q
      \/ (Qfloor top mod 20 <> 0)%Z) ->
  exists buf s',
    plot_security_report argsort format_1f (PyTable t) s = (Return buf, s').
Proof.
  intros Hm Hk Ht Hlm Hlt Hn Hticks.
  assert (Hpd : pd_DataFrame t
                = Return (mkDataFrame (List.length module0) (Some module0)
                            (Some keys) (Some tokens0) None)).
  { unfold pd_DataFrame, column_lengths. rewrite Hm, Hk, Ht. simpl.
    rewrite Hlm, Hlt, Nat.eqb_refl. reflexivity. }
  pose proof (argsort_length keys) as Hlen.
  assert (Hids : forall s0,
             generate_identifiers
               (PyDataFrame
                  (take (argsort keys)
                     (mkDataFrame (List.length module0) (Some module0)
                        (Some keys) (Some tokens0) None))) s0
             = (Return (map spec_identifier
                          (seq 0 (List.length (argsort keys)))), s0)).
  { intros s0. apply generate_identifiers_returns. simpl. lia. }
  destruct (bar_colors_defined
              (rev ["#6C5B7B"; "#C06C84"; "#F67280"; "#F8B195"]%string)
              (take_column 0%Q (argsort keys) tokens0)
              (series_min_le_max (take_column 0%Q (argsort keys) tokens0)))
    as (color & Hcolor & _).
  destruct (@py_max_nonempty (take_column 0%Q (argsort keys) keys))
    as (top & Htop).
  { intros E. apply (f_equal (@List.length Q)) in E.
    unfold take_column in E. rewrite length_map in E. simpl in E. lia. }
  assert (Hx : set_ticklabels
                 (linspace_turns (List.length (argsort keys)))
                 (map spec_identifier (seq 0 (List.length (argsort keys))))
               = Return tt).
  { apply set_ticklabels_Return. right.
    unfold linspace_turns. now rewrite !length_map. }
  assert (Hy : set_ticklabels (arange_20 top)
                 (map (fun x => (str_nat x ++ "%")%string)
                      (range_20 (py_int top)))
               = Return tt).
  { apply yticklabels_accepted_iff.
    pose proof (sorted_column_Permutation 0%Q keys keys eq_refl) as Hperm.
    apply py_max_spec in Htop as [Hin Hmax].
    apply Hticks.
    - now apply (Permutation_in _ Hperm).
    - intros x Hx'. apply Hmax.
      now apply (Permutation_in _ (Permutation_sym Hperm)). }
  do 2 eexists. apply plot_security_report_Return_body.
  unfold plot_security_report_body.
  erewrite bind_Return by reflexivity.
  erewrite bind_Return by reflexivity.
  erewrite bind_Return by (unfold lift; rewrite Hpd; reflexivity).
  erewrite bind_Return by reflexivity.
  erewrite bind_Return by apply Hids.
  erewrite bind_Return by reflexivity.
  erewrite bind_Return by reflexivity.
  erewrite bind_Return by reflexivity.
  erewrite bind_Return by reflexivity.
  erewrite bind_Return by (unfold lift; rewrite Hcolor; reflexivity).
  erewrite bind_Return by (unfold lift; rewrite Htop; reflexivity).
  erewrite bind_Return by reflexivity.
  erewrite bind_Return by (unfold lift; cbn [df_len set_identifier take];
                           rewrite Hx; reflexivity).
  erewrite bind_Return by (unfold lift; rewrite Hy; reflexivity).
  erewrite bind_Return by reflexivity.
  erewrite bind_Return by reflexivity.
  erewrite bind_Return by reflexivity.
  reflexivity.
Qed.

Lemma zip3_colors {A B C} (xs : list A) (ys : list B) (zs : list C) :
  List.length xs = List.length zs -> List.length ys = List.length zs ->
  map (fun xyz => snd xyz) (zip3 xs ys zs) = zs.
Proof.
  revert ys zs.
  induction xs as [|x xs IH]; intros [|y ys] [|z zs]; simpl;
    try discriminate; try reflexivity.
  intros [= Hx] [= Hy]. now rewrite IH.
Qed.

Lemma map_constant {A B} (b : B) (l : list A) :
  map (fun _ => b) l = repeat b (List.length l).
Proof. induction l as [|a l IH]; simpl; [reflexivity|now rewrite IH]. Qed.

(** C7. When all rows of a non-empty table carry the same [tokens] value,
    the colour mapping, applied to the sorted [tokens] column as the program
    applies it, succeeds without dividing and gives one colour for each row,
    all of them the colormap read at 0; no call ends in a division by zero;
    and the chart that is rendered has one bar for each row, every one of
    that colour. *)
Theorem color_mapping_constant t s keys tokens v :
  t_failureRate t = Some keys ->
  t_tokens t = Some tokens ->
  List.length tokens = List.length keys ->
  tokens <> [] ->
  (forall x, In x tokens -> (x == v)%Q) ->
  let palette := rev ["#6C5B7B"; "#C06C84"; "#F67280"; "#F8B195"]%string in
  let sorted := take_column 0%Q (argsort keys) tokens in
  bar_colors palette (series_min sorted) (series_max sorted) sorted
  = Return (repeat (mkColor palette 256 0%Q) (List.length tokens)) /\
  (forall msg,
      fst (plot_security_report argsort format_1f (PyTable t) s)
      <> Raise (ZeroDivisionError msg)) /\
  (forall buf s',
      plot_security_report argsort format_1f (PyTable t) s = (Return buf, s') ->
      map bar_color (bars (png_of buf))
      = repeat (mkColor palette 256 0%Q) (List.length tokens)).
Proof.
  intros Hkeys Htok Hlen Hne Hall. cbv zeta.
  pose proof (sorted_column_Permutation 0%Q keys tokens Hlen) as Hperm.
  set (sorted := take_column 0%Q (argsort keys) tokens) in *.
  assert (Hsorted : sorted <> []).
  { intros E. rewrite E in Hperm. apply Permutation_nil in Hperm.
    congruence. }
  assert (Hconst : (series_min sorted == series_max sorted)%Q).
  { destruct (series_min_spec Hsorted) as [Hmin _].
    destruct (series_max_spec Hsorted) as [Hmax _].
    rewrite (Hall _ (Permutation_in _ Hperm Hmin)).
    rewrite (Hall _ (Permutation_in _ Hperm Hmax)).
    reflexivity. }
  assert (Hstep :
            bar_colors
              (rev ["#6C5B7B"; "#C06C84"; "#F67280"; "#F8B195"]%string)
              (series_min sorted) (series_max sorted) sorted
            = Return
                (repeat
                   (mkColor
                      (rev ["#6C5B7B"; "#C06C84"; "#F67280"; "#F8B195"]%string)
                      256 0%Q)
                   (List.length tokens))).
  { rewrite (bar_colors_constant _ _ Hconst), map_constant.
    now rewrite (Permutation_length Hperm). }
  split; [exact Hstep|]. split.
  - intros msg Heq. rewrite plot_security_report_fst in Heq.
    destruct (plot_security_report_body argsort format_1f (PyTable t) s)
      as [[buf|e] s1] eqn:E; [discriminate|].
    simpl in Heq. injection Heq as ->.
    apply plot_security_report_body_raises in E. simpl in E.
    repeat (destruct E as [E|E]; try discriminate E). exact E.
  - intros buf s' Hret.
    apply plot_security_report_Return in Hret
      as (t0 & d & keys0 & tokens0 & module0 & top & color & [= <-] & Hd
          & Hkeys0 & Htokens0 & _ & Hrest).
    cbv zeta in Hrest. destruct Hrest as (_ & _ & Hcol & Hpng & _).
    apply pd_DataFrame_inv in Hd as (_ & Hfr & Htk & _).
    rewrite Hkeys0, Hkeys in Hfr. injection Hfr as ->.
    rewrite Htokens0, Htok in Htk. injection Htk as ->.
    fold sorted in Hcol. rewrite Hstep in Hcol. injection Hcol as <-.
    rewrite Hpng. cbn [bars]. rewrite map_map. cbn [bar_color].
    apply zip3_colors.
    + rewrite linspace_turns_len, repeat_length, Hlen.
      apply argsort_length.
    + unfold take_column. rewrite length_map, repeat_length, Hlen.
      apply argsort_length.
Qed.

(** The sort has one way to order three rows with keys 10, 90, 50. *)
Lemma argsort_10_90_50 : argsort [10 # 1; 90 # 1; 50 # 1]%Q = [1; 2; 0].
Proof.
  destruct (argsort_sorts [10 # 1; 90 # 1; 50 # 1]%Q) as [Hperm Hsorted].
  simpl in Hperm.
  pose proof (Permutation_length Hperm) as Hlen.
  pose proof (Permutation_NoDup (Permutation_sym Hperm) (seq_NoDup 3 0))
    as Hnd.
  destruct (argsort [10 # 1; 90 # 1; 50 # 1]%Q) as [|a [|b [|c [|]]]];
    try discriminate Hlen.
  assert (Ha : In a [0; 1; 2]) by (apply (Permutation_in _ Hperm); simpl; tauto).
  assert (Hb : In b [0; 1; 2]) by (apply (Permutation_in _ Hperm); simpl; tauto).
  assert (Hc : In c [0; 1; 2]) by (apply (Permutation_in _ Hperm); simpl; tauto).
  apply StronglySorted_inv in Hsorted as [Hbc Hab].
  apply StronglySorted_inv in Hbc as [_ Hbc].
  inversion Hab as [|? ? Hab1 Hab2]; subst.
  inversion Hab2 as [|? ? Hac _]; subst.
  inversion Hbc as [|? ? Hbc1 _]; subst.
  inversion Hnd as [|? ? Hna Hnd1]; subst.
  inversion Hnd1 as [|? ? Hnb _]; subst.
  simpl in Ha, Hb, Hc, Hna, Hnb.
  unfold key_at, Qle in Hab1, Hac, Hbc1.
  destruct Ha as [<-|[<-|[<-|[]]]]; destruct Hb as [<-|[<-|[<-|[]]]];
    destruct Hc as [<-|[<-|[<-|[]]]];
    simpl in Hab1, Hac, Hbc1; try reflexivity; try lia; tauto.
Qed.

(** C8. For a table of three rows whose failureRate values are 10, 90, 50,
    the order used for the identifiers is 90, 50, 10: the sorted frame lists
    the second, third and first row, the bars and the tick labels "A1", "A2",
    "A3" follow that order, and the side table pairs "A1" with the row of 90,
    "A2" with the row of 50 and "A3" with the row of 10. *)
Theorem sorted_order_example m1 m2 m3 t1 t2 t3 s :
  let table :=
    mkTable (Some [m1; m2; m3]) (Some [10 # 1; 90 # 1; 50 # 1]%Q)
            (Some [t1; t2; t3]) in
  (exists d,
      pd_DataFrame table = Return d /\
      sort_values argsort d
      = Return (mkDataFrame 3 (Some [m2; m3; m1])
                  (Some [90 # 1; 50 # 1; 10 # 1]%Q) (Some [t2; t3; t1])
                  None)) /\
  exists buf s',
    plot_security_report argsort format_1f (PyTable table) s = (Return buf, s') /\
    map bar_height (bars (png_of buf)) = [90 # 1; 50 # 1; 10 # 1]%Q /\
    xticklabels (png_of buf) = ["A1"; "A2"; "A3"]%string /\
    map cell_text (table_cells (png_of buf))
    = ["Threat";
       "A1: " ++ m2 ++ " (" ++ format_1f (90 # 1) ++ "%)";
       "A2: " ++ m3 ++ " (" ++ format_1f (50 # 1) ++ "%)";
       "A3: " ++ m1 ++ " (" ++ format_1f (10 # 1) ++ "%)"]%string.
Proof.
  cbv zeta. split.
  - exists (mkDataFrame 3 (Some [m1; m2; m3])
              (Some [10 # 1; 90 # 1; 50 # 1]%Q) (Some [t1; t2; t3]) None).
    split; [reflexivity|].
    unfold sort_values. cbn [df_failureRate].
    rewrite argsort_10_90_50. reflexivity.
  - destruct (@plot_security_report_renders
                (mkTable (Some [m1; m2; m3]) (Some [10 # 1; 90 # 1; 50 # 1]%Q)
                         (Some [t1; t2; t3]))
                s [10 # 1; 90 # 1; 50 # 1]%Q [t1; t2; t3] [m1; m2; m3])
      as (buf & s' & Hret); try reflexivity; [simpl; lia| |].
    { intros top Hin _. right. left.
      destruct Hin as [<-|[<-|[<-|[]]]]; reflexivity. }
    exists buf, s'. split; [exact Hret|].
    apply plot_security_report_Return in Hret
      as (t0 & d & keys & tokens0 & module0 & top & color & [= <-] & Hd
          & Hkeys & Htokens0 & Hmodule0 & Hrest).
    injection Hd as <-. simpl in Hkeys, Htokens0, Hmodule0.
    injection Hkeys as <-. injection Htokens0 as <-. injection Hmodule0 as <-.
    cbv zeta in Hrest. rewrite argsort_10_90_50 in Hrest.
    destruct Hrest as (_ & _ & Hcol & Hpng & _).
    rewrite Hpng. cbn [bars xticklabels table_cells].
    assert (Hlen : List.length color = 3).
    { destruct (bar_colors_defined
                  (rev ["#6C5B7B"; "#C06C84"; "#F67280"; "#F8B195"]%string)
                  (take_column 0%Q [1; 2; 0] [t1; t2; t3])
                  (series_min_le_max (take_column 0%Q [1; 2; 0] [t1; t2; t3])))
        as (color' & Hc' & Hl).
      rewrite Hc' in Hcol. injection Hcol as <-. exact Hl. }
    destruct color as [|c1 [|c2 [|c3 [|]]]]; try discriminate Hlen.
    repeat split.
Qed.

End RendererFacts.

(** ** The theorems at concrete inputs *)



(** C4, at the failing input.  The table without the [tokens] column fails
    after the figure has been created: the call ends with an exception and
    the figure is still open in pyplot's registry. *)
Theorem figure_leaks_on_failure :
  let outcome :=
    plot_security_report insertion_argsort format_1f_exact
      (PyTable table_without_tokens) empty_state in
  figures empty_state = [] /\
  fst outcome = Raise (KeyError "tokens") /\
  figures (snd outcome) = [1].
Proof. vm_compute. repeat split. Qed.

(** A call that returns has closed its figure: the registry of open figures
    is as it was before the call. *)
Lemma figure_closed_on_success argsort format_1f table s buf s' :
  plot_security_report argsort format_1f table s = (Return buf, s') ->
  figures s' = figures s.
Proof.
  intros H. apply plot_security_report_Return in H
    as (t & d & keys & tokens0 & module0 & top & color & _ & _ & _ & _ & _
        & Hrest).
  cbv zeta in Hrest. tauto.
Qed.



Lemma color_mapping_constant_witness :
  let palette := rev ["#6C5B7B"; "#C06C84"; "#F67280"; "#F8B195"]%string in
  let sorted :=
    take_column 0%Q (insertion_argsort [10 # 1; 90 # 1; 50 # 1]%Q)
                [5 # 1; 5 # 1; 5 # 1]%Q in
  bar_colors palette (series_min sorted) (series_max sorted) sorted
  = Return (repeat (mkColor palette 256 0%Q)
                   (List.length [5 # 1; 5 # 1; 5 # 1]%Q)) /\
  (forall msg,
      fst (plot_security_report insertion_argsort format_1f_exact
             (PyTable table_same_tokens) empty_state)
      <> Raise (ZeroDivisionError msg)) /\
  (forall buf s',
      plot_security_report insertion_argsort format_1f_exact
        (PyTable table_same_tokens) empty_state = (Return buf, s') ->
      map bar_color (bars (png_of buf))
      = repeat (mkColor palette 256 0%Q)
               (List.length [5 # 1; 5 # 1; 5 # 1]%Q)).
Proof.
  apply (@color_mapping_constant insertion_argsort format_1f_exact
           insertion_argsort_contract table_same_tokens empty_state
           [10 # 1; 90 # 1; 50 # 1]%Q [5 # 1; 5 # 1; 5 # 1]%Q (5 # 1)%Q).
  - reflexivity.
  - reflexivity.
  - reflexivity.
  - discriminate.
  - simpl. intros x [<-|[<-|[<-|[]]]]; reflexivity.
Defined.

(** The table with equal token counts is rendered, with three bars. *)
Example table_same_tokens_rendered :
  exists buf s',
    plot_security_report insertion_argsort format_1f_exact
      (PyTable table_same_tokens) empty_state = (Return buf, s') /\
    List.length (bars (png_of buf)) = 3.
Proof. eexists. eexists. split; vm_compute; reflexivity. Qed.

Lemma sorted_order_example_witness :
  (exists d,
      pd_DataFrame table_10_90_50 = Return d /\
      sort_values insertion_argsort d
      = Return (mkDataFrame 3 (Some ["beta"; "gamma"; "alpha"]%string)
                  (Some [90 # 1; 50 # 1; 10 # 1]%Q)
                  (Some [3 # 1; 5 # 1; 7 # 1]%Q) None)) /\
  exists buf s',
    plot_security_report insertion_argsort format_1f_exact
      (PyTable table_10_90_50) empty_state = (Return buf, s') /\
    map bar_height (bars (png_of buf)) = [90 # 1; 50 # 1; 10 # 1]%Q /\
    xticklabels (png_of buf) = ["A1"; "A2"; "A3"]%string /\
    map cell_text (table_cells (png_of buf))
    = ["Threat"; "A1: beta (90.0%)"; "A2: gamma (50.0%)";
       "A3: alpha (10.0%)"]%string.
Proof.
  apply (@sorted_order_example insertion_argsort format_1f_exact
           insertion_argsort_contract "alpha" "beta" "gamma"
           (7 # 1)%Q (3 # 1)%Q (5 # 1)%Q empty_state).
Defined.

(** ** What the contract of the sort settles, and what it leaves open *)

Lemma StronglySorted_map {A B} (f : A -> B) (R : B -> B -> Prop) l :
  StronglySorted (fun a b => R (f a) (f b)) l -> StronglySorted R (map f l).
Proof.
  induction 1 as [|a l Hs IH Hall]; simpl; constructor.
  - exact IH.
  - apply Forall_map. exact Hall.
Qed.

(** Whatever sorter meets the contract, the sorted frame holds the rows of
    the input, by non-increasing failureRate. *)
Lemma sort_values_descending argsort d keys :
  argsort_contract argsort ->
  df_failureRate d = Some keys ->
  exists d' sorted,
    sort_values argsort d = Return d' /\
    df_failureRate d' = Some sorted /\
    Permutation sorted keys /\
    StronglySorted (fun a b => (b <= a)%Q) sorted.
Proof.
  intros Hc Hkeys. destruct (Hc keys) as [Hperm Hsorted].
  unfold sort_values. rewrite Hkeys.
  eexists. eexists. split; [reflexivity|]. simpl. rewrite Hkeys. simpl.
  split; [reflexivity|]. split.
  - now apply take_column_Permutation.
  - unfold take_column. apply StronglySorted_map. exact Hsorted.
Qed.

Lemma insert_before_ties_Permutation keys i sorted :
  Permutation (insert_before_ties keys i sorted) (i :: sorted).
Proof.
  induction sorted as [|j rest IH]; simpl.
  - reflexivity.
  - destruct (Qlt_le_dec (key_at keys i) (key_at keys j)).
    + rewrite IH. apply perm_swap.
    + reflexivity.
Qed.

Lemma insert_before_ties_sorted keys i sorted :
  StronglySorted (fun a b => (key_at keys b <= key_at keys a)%Q) sorted ->
  StronglySorted (fun a b => (key_at keys b <= key_at keys a)%Q)
                 (insert_before_ties keys i sorted).
Proof.
  induction sorted as [|j rest IH]; simpl; intros Hs.
  - constructor; constructor.
  - apply StronglySorted_inv in Hs as [Hrest Hj].
    destruct (Qlt_le_dec (key_at keys i) (key_at keys j)) as [Hlt|Hle].
    + constructor; [now apply IH|].
      apply (Permutation_Forall
               (Permutation_sym (insert_before_ties_Permutation keys i rest))).
      constructor; [now apply Qlt_le_weak|exact Hj].
    + constructor; [constructor; assumption|].
      constructor; [exact Hle|].
      eapply Forall_impl; [|exact Hj].
      intros a Ha. simpl in Ha.
      now apply Qle_trans with (key_at keys j).
Qed.

Lemma reversing_argsort_contract : argsort_contract reversing_argsort.
Proof.
  intros keys. unfold reversing_argsort.
  set (positions := seq 0 (List.length keys)).
  assert (H : forall ps sorted,
             StronglySorted (fun a b => (key_at keys b <= key_at keys a)%Q)
                            sorted ->
             Permutation
               (fold_left (fun acc i => insert_before_ties keys i acc) ps sorted)
               (ps ++ sorted) /\
             StronglySorted (fun a b => (key_at keys b <= key_at keys a)%Q)
               (fold_left (fun acc i => insert_before_ties keys i acc)
                          ps sorted)).
  { induction ps as [|i ps IH]; intros sorted Hs; simpl.
    - split; [reflexivity|exact Hs].
    - destruct (IH _ (insert_before_ties_sorted keys i Hs)) as [Hp Hs'].
      split; [|exact Hs'].
      rewrite Hp, insert_before_ties_Permutation.
      symmetry. apply Permutation_middle. }
  destruct (H positions [] ltac:(constructor)) as [Hp Hs].
  split; [|exact Hs]. now rewrite app_nil_r in Hp.
Qed.

(** The contract does not fix the order of rows with equal failureRate: two
    sorters that both meet it order two tied rows differently. *)
Lemma tie_order_left_open :
  argsort_contract insertion_argsort /\
  argsort_contract reversing_argsort /\
  insertion_argsort [50 # 1; 50 # 1]%Q = [0; 1] /\
  reversing_argsort [50 # 1; 50 # 1]%Q = [1; 0].
Proof.
  split; [exact insertion_argsort_contract|].
  split; [exact reversing_argsort_contract|].
  split; reflexivity.
Qed.

(** * Further properties of [generate_identifiers] *)

Lemma firstn_seq_le n m start : n <= m -> firstn n (seq start m) = seq start n.
Proof.
  revert m start. induction n as [|n IH]; intros m start Hle; [reflexivity|].
  destruct m as [|m]; [lia|]. simpl. f_equal. apply IH. lia.
Qed.

(** The identifier of a row depends on its position alone: the identifiers
    of a shorter frame are the first ones of a longer frame. *)
Theorem generate_identifiers_prefix d1 d2 s1 s2 ids1 ids2 s1' s2' :
  generate_identifiers (PyDataFrame d1) s1 = (Return ids1, s1') ->
  generate_identifiers (PyDataFrame d2) s2 = (Return ids2, s2') ->
  df_len d1 <= df_len d2 ->
  ids1 = firstn (df_len d1) ids2.
Proof.
  intros H1 H2 Hle.
  apply generate_identifiers_Return_inv in H1 as (d1' & [= <-] & _ & -> & _).
  apply generate_identifiers_Return_inv in H2 as (d2' & [= <-] & _ & -> & _).
  now rewrite firstn_map, firstn_seq_le.
Qed.

Lemma generate_identifiers_prefix_witness :
  ["A1"; "A2"]%string
  = firstn (df_len (mkDataFrame 2 None None None None))
           ["A1"; "A2"; "A3"]%string.
Proof.
  apply (@generate_identifiers_prefix
           (mkDataFrame 2 None None None None)
           (mkDataFrame 3 None None None None)
           empty_state empty_state ["A1"; "A2"]%string
           ["A1"; "A2"; "A3"]%string empty_state empty_state).
  - reflexivity.
  - reflexivity.
  - simpl. lia.
Defined.

Lemma str_nat_length k :
  1 <= k <= 26 ->
  String.length (str_nat k) = 1 \/ String.length (str_nat k) = 2.
Proof.
  intros [Hlo Hhi].
  destruct k as [|k]; [lia|].
  do 26 (destruct k as [|k]; [simpl; tauto|]).
  lia.
Qed.

(** Every identifier that is returned is one capital letter followed by the
    decimal digits of a number from 1 to 26: two or three characters. *)
Theorem generate_identifiers_format data s identifiers s' identifier :
  generate_identifiers data s = (Return identifiers, s') ->
  In identifier identifiers ->
  exists letter number,
    identifier = String letter (str_nat number) /\
    nat_of_ascii "A" <= nat_of_ascii letter <= nat_of_ascii "Z" /\
    1 <= number <= 26 /\
    2 <= String.length identifier <= 3.
Proof.
  intros H Hin.
  apply generate_identifiers_Return_inv in H as (d & _ & Hn & -> & _).
  apply in_map_iff in Hin as (i & <- & Hi%in_seq).
  assert (Hq : i / 26 < 26) by (apply Nat.Div0.div_lt_upper_bound; lia).
  assert (Hr : i mod 26 < 26) by (apply Nat.mod_upper_bound; lia).
  exists (ascii_of_nat (nat_of_ascii "A" + i / 26)), (i mod 26 + 1).
  split; [reflexivity|].
  change (nat_of_ascii "A") with 65. change (nat_of_ascii "Z") with 90.
  rewrite nat_ascii_embedding by lia.
  split; [lia|]. split; [lia|].
  unfold spec_identifier.
  change (String.length (String ?c ?r)) with (S (String.length r)).
  destruct (@str_nat_length (i mod 26 + 1)) as [Hl|Hl]; [lia| |];
    rewrite Hl; lia.
Qed.

Lemma generate_identifiers_format_witness :
  exists letter number,
    "Z26"%string = String letter (str_nat number) /\
    nat_of_ascii "A" <= nat_of_ascii letter <= nat_of_ascii "Z" /\
    1 <= number <= 26 /\
    2 <= String.length "Z26" <= 3.
Proof.
  apply (@generate_identifiers_format
           (PyDataFrame (mkDataFrame 676 None None None None)) empty_state
           (map spec_identifier (seq 0 676)) empty_state "Z26"%string).
  - apply generate_identifiers_returns. simpl. lia.
  - apply in_map_iff. exists 675. split; [reflexivity|].
    apply in_seq. lia.
Defined.

(** What a call does to the program state: a call that returns changes
    nothing, and a call that fails has written exactly one error record,
    "Error in generate_identifiers: " followed by the exception's message,
    to the log; the except clause covers every exception the body can raise.
    The open figures are never touched. *)
Theorem generate_identifiers_state data s :
  match generate_identifiers data s with
  | (Return _, s') => s' = s
  | (Raise e, s') =>
      s' = mkState
             (log s ++
              [(ERROR,
                ("Error in generate_identifiers: " ++ str_exn e)%string)])
             (figures s)
  end.
Proof.
  unfold generate_identifiers, try_except, lift.
  destruct (generate_identifiers_body_cases data)
    as [[_ E]|[(d & _ & _ & E)|[(d & _ & _ & E)|(d & _ & _ & E)]]];
    rewrite E; reflexivity.
Qed.

(** * Further properties of [plot_security_report] *)

Lemma generate_identifiers_empty d s :
  df_len d = 0 ->
  generate_identifiers (PyDataFrame d) s
  = (Raise (ValueError "DataFrame cannot be empty."),
     mkState
       (log s ++
        [(ERROR,
          "Error in generate_identifiers: DataFrame cannot be empty."%string)])
       (figures s)).
Proof.
  intros H. unfold generate_identifiers, try_except, lift.
  unfold generate_identifiers_body. rewrite H. reflexivity.
Qed.

Lemma generate_identifiers_oversized d s :
  676 < df_len d ->
  generate_identifiers (PyDataFrame d) s
  = (Raise (OverflowError "Cannot generate more than 676 unique identifiers."),
     mkState
       (log s ++
        [(ERROR,
          "Error in generate_identifiers: Cannot generate more than 676 unique identifiers."%string)])
       (figures s)).
Proof.
  intros H. unfold generate_identifiers, try_except, lift.
  unfold generate_identifiers_body. rewrite max_identifiers_676.
  destruct (Nat.eqb_spec (df_len d) 0); [lia|].
  destruct (Nat.ltb_spec 676 (df_len d)); [reflexivity|lia].
Qed.

Section RendererEffects.

Variable argsort : list Q -> list nat.
Variable format_1f : Q -> string.

(** An argument that is not a [Table] is turned down at once: the call ends
    in a [TypeError] before the first progress message is logged and before
    any figure is created; the log gains the error record alone. *)
Theorem plot_security_report_rejects_non_table table s :
  (forall t, table <> PyTable t) ->
  plot_security_report argsort format_1f table s
  = (Raise (TypeError "Input argument must be a pandas DataFrame."),
     mkState
       (log s ++
        [(ERROR,
          "Error in generating the security report: Input argument must be a pandas DataFrame."%string)])
       (figures s)).
Proof.
  intros Hnot. destruct table as [t|d|o]; [now elim (Hnot t)| |]; reflexivity.
Qed.

(** A table without the [failureRate] column fails in the sort, with the
    [KeyError] of that column, before any figure is created. *)
Theorem plot_security_report_missing_failureRate t d s :
  pd_DataFrame t = Return d ->
  t_failureRate t = None ->
  plot_security_report argsort format_1f (PyTable t) s
  = (Raise (KeyError "failureRate"),
     mkState
       (log s ++
        [(INFO, "Data preprocessing started."%string);
         (ERROR,
          "Error in generating the security report: 'failureRate'"%string)])
       (figures s)).
Proof.
  intros Hpd Hnone.
  pose proof (pd_DataFrame_inv _ Hpd) as (_ & Hfr & _).
  rewrite Hnone in Hfr.
  assert (Hbody :
            plot_security_report_body argsort format_1f (PyTable t) s
            = (Raise (KeyError "failureRate"),
               mkState (log s ++ [(INFO, "Data preprocessing started."%string)])
                       (figures s))).
  { unfold plot_security_report_body.
    erewrite bind_Return by reflexivity.
    erewrite bind_Return by reflexivity.
    erewrite bind_Return by (unfold lift; rewrite Hpd; reflexivity).
    apply bind_Raise. unfold lift, sort_values. now rewrite Hfr. }
  unfold plot_security_report, try_except. rewrite Hbody.
  unfold bind, logging_error, logging, raise. simpl.
  now rewrite <- app_assoc.
Qed.

(** From here on the sort is assumed to keep its promise. *)
Hypothesis argsort_sorts : argsort_contract argsort.

(** The run of the [try] block up to the creation of the figure, on a table
    with a [failureRate] column of an accepted length. *)
Lemma sorted_frame_identified d keys s :
  df_failureRate d = Some keys ->
  1 <= List.length keys <= 676 ->
  generate_identifiers (PyDataFrame (take (argsort keys) d)) s
  = (Return (map spec_identifier (seq 0 (List.length (argsort keys)))), s).
Proof.
  intros Hkeys Hn. apply generate_identifiers_returns. simpl.
  rewrite (argsort_length argsort_sorts). exact Hn.
Qed.

(** An empty table (a [failureRate] column without rows) is turned down by
    [generate_identifiers] before any figure is created; the [ValueError] is
    logged twice, once by each function. *)
Theorem plot_security_report_empty t d s :
  pd_DataFrame t = Return d ->
  t_failureRate t = Some [] ->
  plot_security_report argsort format_1f (PyTable t) s
  = (Raise (ValueError "DataFrame cannot be empty."),
     mkState
       (log s ++
        [(INFO, "Data preprocessing started."%string);
         (ERROR,
          "Error in generate_identifiers: DataFrame cannot be empty."%string);
         (ERROR,
          "Error in generating the security report: DataFrame cannot be empty."%string)])
       (figures s)).
Proof.
  intros Hpd Hempty.
  pose proof (pd_DataFrame_inv _ Hpd) as (_ & Hfr & _).
  rewrite Hempty in Hfr.
  assert (Hbody :
            plot_security_report_body argsort format_1f (PyTable t) s
            = (Raise (ValueError "DataFrame cannot be empty."),
               mkState
                 ((log s ++ [(INFO, "Data preprocessing started."%string)]) ++
                  [(ERROR,
                    "Error in generate_identifiers: DataFrame cannot be empty."%string)])
                 (figures s))).
  { unfold plot_security_report_body.
    erewrite bind_Return by reflexivity.
    erewrite bind_Return by reflexivity.
    erewrite bind_Return by (unfold lift; rewrite Hpd; reflexivity).
    erewrite bind_Return
      by (unfold lift, sort_values; rewrite Hfr; reflexivity).
    apply bind_Raise. rewrite generate_identifiers_empty; [reflexivity|].
    simpl. now rewrite (argsort_length argsort_sorts). }
  unfold plot_security_report, try_except. rewrite Hbody.
  unfold bind, logging_error, logging, raise. simpl.
  now rewrite <- !app_assoc.
Qed.

(** A table of more than 676 rows is turned down by [generate_identifiers]
    before any figure is created; the [OverflowError] is logged twice. *)
Theorem plot_security_report_oversized t d keys s :
  pd_DataFrame t = Return d ->
  t_failureRate t = Some keys ->
  676 < List.length keys ->
  plot_security_report argsort format_1f (PyTable t) s
  = (Raise (OverflowError "Cannot generate more than 676 unique identifiers."),
     mkState
       (log s ++
        [(INFO, "Data preprocessing started."%string);
         (ERROR,
          "Error in generate_identifiers: Cannot generate more than 676 unique identifiers."%string);
         (ERROR,
          "Error in generating the security report: Cannot generate more than 676 unique identifiers."%string)])
       (figures s)).
Proof.
  intros Hpd Hkeys Hbig.
  pose proof (pd_DataFrame_inv _ Hpd) as (_ & Hfr & _).
  rewrite Hkeys in Hfr.
  assert (Hbody :
            plot_security_report_body argsort format_1f (PyTable t) s
            = (Raise (OverflowError
                        "Cannot generate more than 676 unique identifiers."),
               mkState
                 ((log s ++ [(INFO, "Data preprocessing started."%string)]) ++
                  [(ERROR,
                    "Error in generate_identifiers: Cannot generate more than 676 unique identifiers."%string)])
                 (figures s))).
  { unfold plot_security_report_body.
    erewrite bind_Return by reflexivity.
    erewrite bind_Return by reflexivity.
    erewrite bind_Return by (unfold lift; rewrite Hpd; reflexivity).
    erewrite bind_Return
      by (unfold lift, sort_values; rewrite Hfr; reflexivity).
    apply bind_Raise. rewrite generate_identifiers_oversized; [reflexivity|].
    simpl. now rewrite (argsort_length argsort_sorts). }
  unfold plot_security_report, try_except. rewrite Hbody.
  unfold bind, logging_error, logging, raise. simpl.
  now rewrite <- !app_assoc.
Qed.

(** A table of an accepted length without the [tokens] column fails with the
    [KeyError] of that column after the figure has been created: the new
    figure, numbered one above the largest open one, stays open. *)
Theorem plot_security_report_missing_tokens t d keys s :
  pd_DataFrame t = Return d ->
  t_failureRate t = Some keys ->
  1 <= List.length keys <= 676 ->
  t_tokens t = None ->
  plot_security_report argsort format_1f (PyTable t) s
  = (Raise (KeyError "tokens"),
     mkState
       (log s ++
        [(INFO, "Data preprocessing started."%string);
         (INFO, "Plot setup complete."%string);
         (ERROR, "Error in generating the security report: 'tokens'"%string)])
       (figures s ++ [S (fold_right Nat.max 0 (figures s))])).
Proof.
  intros Hpd Hkeys Hn Hnone.
  pose proof (pd_DataFrame_inv _ Hpd) as (_ & Hfr & Htk & _).
  rewrite Hkeys in Hfr. rewrite Hnone in Htk.
  assert (Hbody :
            plot_security_report_body argsort format_1f (PyTable t) s
            = (Raise (KeyError "tokens"),
               mkState
                 ((log s ++ [(INFO, "Data preprocessing started."%string)]) ++
                  [(INFO, "Plot setup complete."%string)])
                 (figures s ++ [S (fold_right Nat.max 0 (figures s))]))).
  { unfold plot_security_report_body.
    erewrite bind_Return by reflexivity.
    erewrite bind_Return by reflexivity.
    erewrite bind_Return by (unfold lift; rewrite Hpd; reflexivity).
    erewrite bind_Return
      by (unfold lift, sort_values; rewrite Hfr; reflexivity).
    erewrite bind_Return by (apply sorted_frame_identified; eassumption).
    erewrite bind_Return by reflexivity.
    erewrite bind_Return by reflexivity.
    apply bind_Raise. unfold lift. simpl. now rewrite Htk. }
  unfold plot_security_report, try_except. rewrite Hbody.
  unfold bind, logging_error, logging, raise. simpl.
  now rewrite <- !app_assoc.
Qed.

(** A table of an accepted length with its numeric columns but without the
    [module] column, whose largest failureRate gives as many labels as
    gridlines (or no label), fails only when the side table is built, with
    the [KeyError] of that column; the figure stays open. *)
Theorem plot_security_report_missing_module t d keys tokens s :
  pd_DataFrame t = Return d ->
  t_failureRate t = Some keys ->
  1 <= List.length keys <= 676 ->
  t_tokens t = Some tokens ->
  t_module t = None ->
  (forall top,
      In top keys -> (forall x, In x keys -> (x <= top)%Q) ->
      (top < 1)%Q \/ (top == inject_Z (Qfloor top))%Q
      \/ (Qfloor top mod 20 <> 0)%Z) ->
  plot_security_report argsort format_1f (PyTable t) s
  = (Raise (KeyError "module"),
     mkState
       (log s ++
        [(INFO, "Data preprocessing started."%string);
         (INFO, "Plot setup complete."%string);
         (ERROR, "Error in generating the security report: 'module'"%string)])
       (figures s ++ [S (fold_right Nat.max 0 (figures s))])).
Proof.
  intros Hpd Hkeys Hn Htokens Hnone Hticks.
  pose proof (pd_DataFrame_inv _ Hpd) as (Hmod & Hfr & Htk & _).
  rewrite Hkeys in Hfr. rewrite Htokens in Htk. rewrite Hnone in Hmod.
  destruct (bar_colors_defined
              (rev ["#6C5B7B"; "#C06C84"; "#F67280"; "#F8B195"]%string)
              (take_column 0%Q (argsort keys) tokens)
              (series_min_le_max (take_column 0%Q (argsort keys) tokens)))
    as (color & Hcolor & _).
  destruct (@py_max_nonempty (take_column 0%Q (argsort keys) keys))
    as (top & Htop).
  { intros E. apply (f_equal (@List.length Q)) in E.
    unfold take_column in E.
    rewrite length_map, (argsort_length argsort_sorts) in E. simpl in E. lia. }
  assert (Hx : set_ticklabels
                 (linspace_turns (List.length (argsort keys)))
                 (map spec_identifier (seq 0 (List.length (argsort keys))))
               = Return tt).
  { apply set_ticklabels_Return. right.
    unfold linspace_turns. now rewrite !length_map. }
  assert (Hy : set_ticklabels (arange_20 top)
                 (map (fun x => (str_nat x ++ "%")%string)
                      (range_20 (py_int top)))
               = Return tt).
  { apply yticklabels_accepted_iff.
    pose proof (take_column_Permutation 0%Q keys
                  (proj1 (argsort_sorts keys))) as Hperm.
    pose proof (py_max_spec _ Htop) as [Hin Hmax].
    apply Hticks.
    - now apply (Permutation_in _ Hperm).
    - intros x Hx'. apply Hmax.
      now apply (Permutation_in _ (Permutation_sym Hperm)). }
  assert (Hbody :
            plot_security_report_body argsort format_1f (PyTable t) s
            = (Raise (KeyError "module"),
               mkState
                 ((log s ++ [(INFO, "Data preprocessing started."%string)]) ++
                  [(INFO, "Plot setup complete."%string)])
                 (figures s ++ [S (fold_right Nat.max 0 (figures s))]))).
  { unfold plot_security_report_body.
    erewrite bind_Return by reflexivity.
    erewrite bind_Return by reflexivity.
    erewrite bind_Return by (unfold lift; rewrite Hpd; reflexivity).
    erewrite bind_Return
      by (unfold lift, sort_values; rewrite Hfr; reflexivity).
    erewrite bind_Return by (apply sorted_frame_identified; eassumption).
    erewrite bind_Return by reflexivity.
    erewrite bind_Return by reflexivity.
    erewrite bind_Return by (unfold lift; simpl; rewrite Htk; reflexivity).
    erewrite bind_Return by (unfold lift; simpl; rewrite Hfr; reflexivity).
    erewrite bind_Return by (unfold lift; rewrite Hcolor; reflexivity).
    erewrite bind_Return by (unfold lift; rewrite Htop; reflexivity).
    erewrite bind_Return by reflexivity.
    erewrite bind_Return by (unfold lift; cbn [df_len set_identifier take];
                             rewrite Hx; reflexivity).
    erewrite bind_Return by (unfold lift; rewrite Hy; reflexivity).
    apply bind_Raise. unfold lift. simpl. now rewrite Hmod. }
  unfold plot_security_report, try_except. rewrite Hbody.
  unfold bind, logging_error, logging, raise. simpl.
  now rewrite <- !app_assoc.
Qed.


(** A call that returns has logged exactly three progress messages and no
    error, has closed its figure, and hands back a buffer written at 300 dpi
    and rewound to its start. *)
Theorem plot_security_report_success_effects table s buf s' :
  plot_security_report argsort format_1f table s = (Return buf, s') ->
  log s'
  = log s ++
    [(INFO, "Data preprocessing started."%string);
     (INFO, "Plot setup complete."%string);
     (INFO, "Report successfully generated and saved to buffer."%string)] /\
  figures s' = figures s /\
  tell buf = AtStart /\
  dpi buf = 300.
Proof.
  intros H%plot_security_report_Return_body.
  unfold plot_security_report_body in H.
  apply bind_Return_inv in H as (t & s1 & Ht & H).
  destruct table as [t0|d0|o]; try discriminate Ht.
  injection Ht as <- <-.
  apply bind_Return_inv in H as ([] & s2 & Hlog1 & H).
  apply bind_Return_inv in H as (d & s3 & [_ ->]%lift_inv & H).
  apply bind_Return_inv in H as (d1 & s4 & [_ ->]%lift_inv & H).
  apply bind_Return_inv in H as (ids & s5 & Hids & H).
  apply bind_Return_inv in H as (fig & s6 & Hfig & H).
  apply bind_Return_inv in H as ([] & s7 & Hlog2 & H).
  apply bind_Return_inv in H as (tokens & s8 & [_ ->]%lift_inv & H).
  apply bind_Return_inv in H as (fr & s9 & [_ ->]%lift_inv & H).
  apply bind_Return_inv in H as (color & s10 & [_ ->]%lift_inv & H).
  apply bind_Return_inv in H as (top & s11 & [_ ->]%lift_inv & H).
  apply bind_Return_inv in H as (ident & s12 & [_ ->]%lift_inv & H).
  apply bind_Return_inv in H as ([] & ? & [_ ->]%lift_inv & H).
  apply bind_Return_inv in H as ([] & ? & [_ ->]%lift_inv & H).
  apply bind_Return_inv in H as (module & s13 & [_ ->]%lift_inv & H).
  apply bind_Return_inv in H as ([] & s14 & Hclose & H).
  apply bind_Return_inv in H as ([] & s15 & Hlog3 & H).
  apply generate_identifiers_Return_inv in Hids as (_ & _ & _ & _ & ->).
  unfold logging_info, logging in Hlog1, Hlog2, Hlog3.
  unfold plt_subplots in Hfig. unfold plt_close in Hclose.
  injection Hlog1 as <-. injection Hfig as <- <-.
  injection Hlog2 as <-. injection Hclose as <-. injection Hlog3 as <-.
  injection H as <- <-. simpl.
  repeat split.
  - now rewrite <- !app_assoc.
  - apply figure_released.
Qed.

Lemma bind_inv {A B} (m : M A) (k : A -> M B) s r s' :
  bind m k s = (r, s') ->
  (exists e, m s = (Raise e, s') /\ r = Raise e) \/
  (exists a s1, m s = (Return a, s1) /\ k a s1 = (r, s')).
Proof.
  unfold bind. destruct (m s) as [[a|e] s1]; intros H.
  - right. now exists a, s1.
  - left. injection H as <- <-. now exists e.
Qed.

Lemma generate_identifiers_figures data s r s' :
  generate_identifiers data s = (r, s') -> figures s' = figures s.
Proof.
  unfold generate_identifiers, try_except, lift.
  destruct (generate_identifiers_body_cases data)
    as [[_ E]|[(d & _ & _ & E)|[(d & _ & _ & E)|(d & _ & _ & E)]]];
    rewrite E; now intros [= <- <-].
Qed.

(** The open figures after the [try] block: those open before, and
    possibly the new one. *)
Lemma plot_security_report_body_figures table s r s' :
  plot_security_report_body argsort format_1f table s = (r, s') ->
  figures s' = figures s \/
  figures s' = figures s ++ [S (fold_right Nat.max 0 (figures s))].
Proof.
  intros H. unfold plot_security_report_body in H.
  apply bind_inv in H as [(e & H & _)|(t & s1 & Ht & H)].
  { left. destruct table; inversion H; reflexivity. }
  assert (s1 = s) as -> by (destruct table; inversion Ht; reflexivity).
  apply bind_inv in H as [(e & H & _)|([] & s2 & Hlog1 & H)];
    [discriminate H|].
  unfold logging_info, logging in Hlog1. injection Hlog1 as <-.
  apply bind_inv in H as [(e & [_ ->]%lift_inv & _)|(d & ? & [_ ->]%lift_inv & H)];
    [now left|].
  apply bind_inv in H as [(e & [_ ->]%lift_inv & _)|(d1 & ? & [_ ->]%lift_inv & H)];
    [now left|].
  apply bind_inv in H as [(e & H & _)|(ids & s5 & Hids & H)].
  { left. now apply generate_identifiers_figures in H. }
  apply generate_identifiers_figures in Hids. simpl in Hids.
  apply bind_inv in H as [(e & H & _)|(fig & s6 & Hfig & H)];
    [discriminate H|].
  unfold plt_subplots in Hfig. injection Hfig as <- <-. rewrite Hids in *.
  apply bind_inv in H as [(e & H & _)|([] & s7 & Hlog2 & H)];
    [discriminate H|].
  unfold logging_info, logging in Hlog2. injection Hlog2 as <-.
  apply bind_inv in H as [(e & [_ ->]%lift_inv & _)|(tk & ? & [_ ->]%lift_inv & H)];
    [now right|].
  apply bind_inv in H as [(e & [_ ->]%lift_inv & _)|(fr & ? & [_ ->]%lift_inv & H)];
    [now right|].
  apply bind_inv in H as [(e & [_ ->]%lift_inv & _)|(col & ? & [_ ->]%lift_inv & H)];
    [now right|].
  apply bind_inv in H as [(e & [_ ->]%lift_inv & _)|(top & ? & [_ ->]%lift_inv & H)];
    [now right|].
  apply bind_inv in H as [(e & [_ ->]%lift_inv & _)|(ident & ? & [_ ->]%lift_inv & H)];
    [now right|].
  apply bind_inv in H as [(e & [_ ->]%lift_inv & _)|([] & ? & [_ ->]%lift_inv & H)];
    [now right|].
  apply bind_inv in H as [(e & [_ ->]%lift_inv & _)|([] & ? & [_ ->]%lift_inv & H)];
    [now right|].
  apply bind_inv in H as [(e & [_ ->]%lift_inv & _)|(md & ? & [_ ->]%lift_inv & H)];
    [now right|].
  apply bind_inv in H as [(e & H & _)|([] & s14 & Hclose & H)];
    [discriminate H|].
  unfold plt_close in Hclose. injection Hclose as <-.
  apply bind_inv in H as [(e & H & _)|([] & s15 & Hlog3 & H)];
    [discriminate H|].
  unfold logging_info, logging in Hlog3. injection Hlog3 as <-.
  injection H as _ <-. left. simpl. apply figure_released.
Qed.

(** Whatever the outcome of a call, the figures that were open before it
    are still open after it, and at most one figure has been added: the one
    the call created, when it failed after creating it. *)
Theorem plot_security_report_figures table s :
  let s' := snd (plot_security_report argsort format_1f table s) in
  (figures s' = figures s \/
   figures s' = figures s ++ [S (fold_right Nat.max 0 (figures s))]) /\
  (forall k, In k (figures s) -> In k (figures s')).
Proof.
  cbv zeta.
  assert (H : figures (snd (plot_security_report argsort format_1f table s))
              = figures s \/
              figures (snd (plot_security_report argsort format_1f table s))
              = figures s ++ [S (fold_right Nat.max 0 (figures s))]).
  { unfold plot_security_report, try_except.
    destruct (plot_security_report_body argsort format_1f table s)
      as [[buf|e] s1] eqn:Hbody;
      apply plot_security_report_body_figures in Hbody; exact Hbody. }
  split; [exact H|].
  intros k Hk. destruct H as [-> | ->]; [exact Hk|].
  apply in_or_app. now left.
Qed.

Lemma bar_colors_length stops vmin vmax tokens color :
  bar_colors stops vmin vmax tokens = Return color ->
  List.length color = List.length tokens.
Proof.
  revert color. induction tokens as [|t rest IH]; simpl; intros color H.
  - now injection H as <-.
  - destruct (Normalize vmin vmax t) as [x|e]; [|discriminate]. simpl in H.
    destruct (bar_colors stops vmin vmax rest) as [cs|e]; [|discriminate].
    simpl in H. injection H as <-. simpl. now rewrite (IH cs).
Qed.

Lemma linspace_turns_length n : List.length (linspace_turns n) = n.
Proof. unfold linspace_turns. now rewrite length_map, length_seq. Qed.

(** The bars of a rendered chart carry the failure rates of the table, each
    row once, in non-increasing order around the circle, and the tick labels
    name them in that order: "A1" for the largest, and so on. *)
Theorem bars_descending t s buf s' failureRate :
  plot_security_report argsort format_1f (PyTable t) s = (Return buf, s') ->
  t_failureRate t = Some failureRate ->
  Permutation (map bar_height (bars (png_of buf))) failureRate /\
  StronglySorted (fun a b => (b <= a)%Q)
                 (map bar_height (bars (png_of buf))) /\
  xticklabels (png_of buf)
  = map spec_identifier (seq 0 (List.length failureRate)).
Proof.
  intros Hret Hfr.
  apply plot_security_report_Return in Hret
    as (t0 & d & keys & tokens0 & module0 & top & color & [= <-] & Hd & Hkeys
        & _ & _ & Hrest).
  cbv zeta in Hrest. destruct Hrest as (_ & _ & Hcol & Hpng & _).
  apply pd_DataFrame_inv in Hd as (_ & Hcolumn & _).
  rewrite Hkeys, Hfr in Hcolumn. injection Hcolumn as ->.
  apply bar_colors_length in Hcol.
  destruct (argsort_sorts failureRate) as [Hperm Hsorted].
  assert (Hheights :
            map bar_height (bars (png_of buf))
            = take_column 0%Q (argsort failureRate) failureRate).
  { rewrite Hpng. cbn [bars]. rewrite map_map. cbn [bar_height].
    apply zip3_heights.
    - rewrite linspace_turns_length. unfold take_column.
      now rewrite length_map.
    - rewrite Hcol. unfold take_column. now rewrite !length_map. }
  rewrite Hheights. repeat split.
  - now apply take_column_Permutation.
  - unfold take_column. apply StronglySorted_map. exact Hsorted.
  - rewrite Hpng. cbn [xticklabels].
    now rewrite (argsort_length argsort_sorts).
Qed.




(** When no failure rate is negative and one at least is positive, the
    limits that a rendered chart asks of the radial axis are 0 and a positive
    value, and every bar and every circular gridline lies between them. *)
Theorem bars_within_axis t s buf s' failureRate :
  plot_security_report argsort format_1f (PyTable t) s = (Return buf, s') ->
  t_failureRate t = Some failureRate ->
  (forall x, In x failureRate -> (0 <= x)%Q) ->
  (exists x, In x failureRate /\ (0 < x)%Q) ->
  fst (set_ylim (png_of buf)) = 0%Q /\
  (0 < snd (set_ylim (png_of buf)))%Q /\
  (forall b, In b (bars (png_of buf)) ->
             (0 <= bar_height b <= snd (set_ylim (png_of buf)))%Q) /\
  (forall q, In q (yticks (png_of buf)) ->
             (0 <= q <= snd (set_ylim (png_of buf)))%Q).
Proof.
  intros Hret Hfr Hnonneg (x0 & Hx0 & Hpos).
  apply plot_security_report_Return in Hret
    as (t0 & d & keys & tokens0 & module0 & top & color & [= <-] & Hd & Hkeys
        & _ & _ & Hrest).
  cbv zeta in Hrest. destruct Hrest as (_ & Htop & _ & Hpng & _).
  apply pd_DataFrame_inv in Hd as (_ & Hcolumn & _).
  rewrite Hkeys, Hfr in Hcolumn. injection Hcolumn as ->.
  destruct (argsort_sorts failureRate) as [Hperm _].
  pose proof (take_column_Permutation 0%Q failureRate Hperm) as Hp.
  apply py_max_spec in Htop as [Hin Hmax].
  assert (Htop0 : (0 < top)%Q).
  { apply Qlt_le_trans with x0; [exact Hpos|].
    apply Hmax. now apply (Permutation_in _ (Permutation_sym Hp)). }
  rewrite Hpng. cbn [set_ylim bars yticks fst snd].
  split; [reflexivity|]. split; [lra|]. split.
  - intros b Hb.
    apply in_map_iff in Hb as ([[angle height] c] & <- & Hzip).
    apply zip3_In in Hzip as (_ & Hh & _). cbn [bar_height fst snd].
    split.
    + apply Hnonneg. now apply (Permutation_in _ Hp).
    + specialize (Hmax _ Hh). lra.
  - intros q Hq. unfold arange_20 in Hq.
    apply in_map_iff in Hq as (k & <- & Hk%in_seq).
    assert (Hlt : k < Z.to_nat (Qceiling (top / 20))) by lia.
    apply arange_20_count in Hlt.
    split; [|lra].
    rewrite <- (Qmult_0_l 0). change (0 * 0)%Q with (inject_Z 0).
    rewrite <- Zle_Qle. lia.
Qed.

Lemma length_zip3 {A B C} (xs : list A) (ys : list B) (zs : list C) n :
  List.length xs = n -> List.length ys = n -> List.length zs = n ->
  List.length (zip3 xs ys zs) = n.
Proof.
  revert xs ys zs. induction n as [|n IH]; intros [|x xs] [|y ys] [|z zs];
    simpl; try discriminate; try reflexivity.
  intros [= Hx] [= Hy] [= Hz]. f_equal. now apply IH.
Qed.

Lemma nth_error_zip3 {A B C} (xs : list A) (ys : list B) (zs : list C)
      i x y z :
  nth_error xs i = Some x -> nth_error ys i = Some y ->
  nth_error zs i = Some z ->
  nth_error (zip3 xs ys zs) i = Some (x, y, z).
Proof.
  revert xs ys zs. induction i as [|i IH]; intros [|x' xs] [|y' ys] [|z' zs];
    simpl; try discriminate.
  - now intros [= ->] [= ->] [= ->].
  - apply IH.
Qed.

Lemma nth_error_linspace_turns n i :
  i < n ->
  nth_error (linspace_turns n) i = Some (Z.of_nat i # Pos.of_nat n)%Q.
Proof.
  intros Hi. unfold linspace_turns.
  rewrite nth_error_map, nth_error_seq.
  destruct (Nat.ltb_spec i n); [reflexivity|lia].
Qed.

Lemma nth_error_take_column {A} (default : A) indexer c i row :
  nth_error indexer i = Some row ->
  nth_error (take_column default indexer c) i = Some (nth row c default).
Proof.
  intros H. unfold take_column. now rewrite nth_error_map, H.
Qed.

Lemma nth_error_enumerate {A} (l : list A) : forall start k x,
  nth_error l k = Some x ->
  nth_error (combine (seq start (List.length l)) l) k = Some (start + k, x).
Proof.
  induction l as [|a l IH]; intros start [|k] x; simpl; try discriminate.
  - intros [= ->]. now rewrite Nat.add_0_r.
  - intros H. rewrite (IH (S start) k x H). f_equal. f_equal. lia.
Qed.

Lemma nth_error_enumerate_inv {A} (l : list A) : forall start k k' x,
  nth_error (combine (seq start (List.length l)) l) k = Some (k', x) ->
  k' = start + k.
Proof.
  induction l as [|a l IH]; intros start [|k] k' x; simpl; try discriminate.
  - intros [= <- _]. lia.
  - intros H. apply IH in H. lia.
Qed.

Lemma nth_error_style_cells table_data k text :
  nth_error table_data k = Some text ->
  nth_error (style_cells table_data) k
  = Some (mkCell text
            (if k mod 2 =? 0 then "#f0f0f0"%string else "#e0e0e0"%string)
            (k =? 0)).
Proof.
  intros H. unfold style_cells.
  now rewrite nth_error_map, (@nth_error_enumerate _ _ 0 _ _ H).
Qed.

(** The identifier of a sorted position names one and the same row of the
    table everywhere in a rendered chart: at position [i], where the sort has
    put the row of index [row], the tick, the bar, the annotation on the bar
    and the line of the side table all carry the identifier of [i] together
    with that row's failure rate and module. *)
Theorem chart_rows_aligned t s buf s' module0 keys i row :
  plot_security_report argsort format_1f (PyTable t) s = (Return buf, s') ->
  t_module t = Some module0 ->
  t_failureRate t = Some keys ->
  nth_error (argsort keys) i = Some row ->
  let angle := (Z.of_nat i # Pos.of_nat (List.length (argsort keys)))%Q in
  let rate := key_at keys row in
  nth_error (xticks (png_of buf)) i = Some angle /\
  nth_error (xticklabels (png_of buf)) i = Some (spec_identifier i) /\
  (exists color,
      nth_error (bars (png_of buf)) i
      = Some (mkBar angle rate (1 # 2) color (8 # 10))) /\
  nth_error (texts (png_of buf)) i
  = Some (mkText angle rate
            (spec_identifier i ++ ": " ++ format_1f rate ++ "%")%string
            (angle * 360 - 90)%Q) /\
  nth_error (table_cells (png_of buf)) (S i)
  = Some (mkCell
            (spec_identifier i ++ ": " ++ nth row module0 EmptyString
             ++ " (" ++ format_1f rate ++ "%)")%string
            (if S i mod 2 =? 0 then "#f0f0f0"%string else "#e0e0e0"%string)
            false).
Proof.
  intros Hret Hm Hk Hrow. cbv zeta.
  apply plot_security_report_Return in Hret
    as (t0 & d & keys0 & tokens0 & module1 & top & color & [= <-] & Hd
        & Hkeys & _ & Hmodule & Hrest).
  cbv zeta in Hrest. destruct Hrest as (_ & _ & Hcol & Hpng & _).
  apply pd_DataFrame_inv in Hd as (Hmcol & Hkcol & _).
  rewrite Hkeys, Hk in Hkcol. injection Hkcol as ->.
  rewrite Hmodule, Hm in Hmcol. injection Hmcol as ->.
  apply bar_colors_length in Hcol.
  assert (Hi : i < List.length (argsort keys))
    by (apply nth_error_Some; congruence).
  pose proof (nth_error_linspace_turns Hi) as Hangle.
  pose proof (@nth_error_take_column _ 0%Q _ keys _ _ Hrow) as Hrate.
  pose proof (@nth_error_take_column _ EmptyString _ module0 _ _ Hrow)
    as Hmod.
  assert (Hid : nth_error
                  (map spec_identifier
                       (seq 0 (List.length (argsort keys)))) i
                = Some (spec_identifier i)).
  { rewrite nth_error_map, nth_error_seq.
    destruct (Nat.ltb_spec i (List.length (argsort keys))); [reflexivity|lia]. }
  destruct (nth_error color i) as [c|] eqn:Hc.
  2:{ apply nth_error_None in Hc. unfold take_column in Hcol.
      rewrite length_map in Hcol. lia. }
  rewrite Hpng. cbn [xticks xticklabels bars texts table_cells].
  split; [exact Hangle|]. split; [exact Hid|]. split; [|split].
  - exists c. rewrite nth_error_map.
    now rewrite (@nth_error_zip3 _ _ _ _ _ _ _ _ _ _ Hangle Hrate Hc).
  - rewrite nth_error_map.
    now rewrite (@nth_error_zip3 _ _ _ _ _ _ _ _ _ _ Hangle Hrate Hid).
  - erewrite nth_error_style_cells; [reflexivity|].
    cbn [nth_error]. rewrite nth_error_map.
    now rewrite (@nth_error_zip3 _ _ _ _ _ _ _ _ _ _ Hid Hrate Hmod).
Qed.

(** A rendered chart has one bar, one tick, one tick label and one
    annotation for each row of the table, and a side table of one header
    line, the bold "Threat", followed by one line for each row; the lines
    are shaded in turn, starting with the lighter shade. *)
Theorem chart_counts t s buf s' failureRate :
  plot_security_report argsort format_1f (PyTable t) s = (Return buf, s') ->
  t_failureRate t = Some failureRate ->
  let n := List.length failureRate in
  List.length (bars (png_of buf)) = n /\
  List.length (xticks (png_of buf)) = n /\
  List.length (xticklabels (png_of buf)) = n /\
  List.length (texts (png_of buf)) = n /\
  List.length (table_cells (png_of buf)) = S n /\
  nth_error (table_cells (png_of buf)) 0
  = Some (mkCell "Threat" "#f0f0f0" true) /\
  (forall k cell,
      nth_error (table_cells (png_of buf)) k = Some cell ->
      cell_facecolor cell
      = (if k mod 2 =? 0 then "#f0f0f0"%string else "#e0e0e0"%string) /\
      cell_bold cell = (k =? 0)).
Proof.
  intros Hret Hfr. cbv zeta.
  apply plot_security_report_Return in Hret
    as (t0 & d & keys & tokens0 & module0 & top & color & [= <-] & Hd
        & Hkeys & _ & _ & Hrest).
  cbv zeta in Hrest. destruct Hrest as (_ & _ & Hcol & Hpng & _).
  apply pd_DataFrame_inv in Hd as (_ & Hkcol & _).
  rewrite Hkeys, Hfr in Hkcol. injection Hkcol as ->.
  apply bar_colors_length in Hcol.
  pose proof (argsort_length argsort_sorts failureRate) as Hlen.
  unfold take_column in Hcol. rewrite length_map, Hlen in Hcol.
  rewrite Hpng. cbn [bars xticks xticklabels texts table_cells].
  rewrite Hlen.
  assert (Hangles : List.length (linspace_turns (List.length failureRate))
                    = List.length failureRate)
    by apply linspace_turns_length.
  assert (Hrates : List.length (take_column 0%Q (argsort failureRate)
                                            failureRate)
                   = List.length failureRate)
    by (unfold take_column; now rewrite length_map).
  assert (Hmods : List.length (take_column EmptyString (argsort failureRate)
                                           module0)
                  = List.length failureRate)
    by (unfold take_column; now rewrite length_map).
  assert (Hids : List.length (map spec_identifier
                                  (seq 0 (List.length failureRate)))
                 = List.length failureRate)
    by now rewrite length_map, length_seq.
  repeat apply conj.
  - rewrite length_map. now apply length_zip3.
  - exact Hangles.
  - exact Hids.
  - rewrite length_map. now apply length_zip3.
  - unfold style_cells. rewrite length_map, length_combine, length_seq.
    cbn [List.length].
    rewrite length_map, (@length_zip3 _ _ _ _ _ _ _ Hids Hrates Hmods).
    apply Nat.min_id.
  - reflexivity.
  - intros k cell H. unfold style_cells in H.
    rewrite nth_error_map in H.
    destruct (nth_error _ k) as [[k' text]|] eqn:Hk; [|discriminate].
    apply nth_error_enumerate_inv in Hk. simpl in Hk. subst k'.
    injection H as <-. split; reflexivity.
Qed.

(** When the token counts of the table are not all equal, the norm that a
    rendered chart gives to its colour legend, labelled "Token Count (k)",
    runs from the smallest to the largest token count of the table, and the
    two differ. *)
Theorem colorbar_spans_tokens t s buf s' tokens :
  plot_security_report argsort format_1f (PyTable t) s = (Return buf, s') ->
  t_tokens t = Some tokens ->
  (exists x y, In x tokens /\ In y tokens /\ (x < y)%Q) ->
  exists vmin vmax,
    colorbar_norm (png_of buf) = (vmin, vmax, "Token Count (k)"%string) /\
    (vmin < vmax)%Q /\
    In vmin tokens /\ In vmax tokens /\
    (forall x, In x tokens -> (vmin <= x <= vmax)%Q).
Proof.
  intros Hret Htok (x0 & y0 & Hx0 & Hy0 & Hxy).
  apply plot_security_report_Return in Hret
    as (t0 & d & keys & tokens0 & module0 & top & color & [= <-] & Hd
        & Hkeys & Htokens0 & _ & Hrest).
  cbv zeta in Hrest. destruct Hrest as (Hn & _ & _ & Hpng & _).
  apply pd_DataFrame_inv in Hd as (_ & Hfr & Htk & Hlens).
  rewrite Htokens0, Htok in Htk. injection Htk as ->.
  assert (Hlen : List.length tokens = List.length keys).
  { unfold column_lengths in Hlens. rewrite Htok, <- Hfr, Hkeys in Hlens.
    rewrite !Forall_app in Hlens. destruct Hlens as (_ & Hk & Ht).
    inversion Hk; inversion Ht; congruence. }
  assert (Hperm : Permutation (take_column 0%Q (argsort keys) tokens) tokens).
  { apply take_column_Permutation. rewrite Hlen. apply argsort_sorts. }
  set (sorted := take_column 0%Q (argsort keys) tokens) in *.
  assert (Hne : sorted <> []).
  { intros E. rewrite E in Hperm. apply Permutation_nil in Hperm.
    rewrite Hperm in Hlen. simpl in Hlen.
    rewrite (argsort_length argsort_sorts) in Hn. lia. }
  destruct (series_min_spec Hne) as [Hmin_in Hmin].
  destruct (series_max_spec Hne) as [Hmax_in Hmax].
  assert (Hbounds : forall x, In x tokens ->
                              (series_min sorted <= x <= series_max sorted)%Q).
  { intros x Hx.
    apply (Permutation_in _ (Permutation_sym Hperm)) in Hx.
    split; [now apply Hmin|now apply Hmax]. }
  exists (series_min sorted), (series_max sorted).
  rewrite Hpng. cbn [colorbar_norm].
  split; [reflexivity|]. split.
  { pose proof (Hbounds _ Hx0). pose proof (Hbounds _ Hy0). lra. }
  split; [now apply (Permutation_in _ Hperm)|].
  split; [now apply (Permutation_in _ Hperm)|].
  exact Hbounds.
Qed.

Lemma set_ticklabels_Raise {A} (ticks : list A) labels :
  set_ticklabels ticks labels <> Return tt ->
  exists msg, set_ticklabels ticks labels = Raise (ValueError msg).
Proof.
  unfold set_ticklabels. destruct (_ && _); [|congruence].
  intros _. eexists. reflexivity.
Qed.

(** A table with its three columns, of an accepted length, whose largest
    failureRate is 1 or more, is not whole and has a multiple of 20 for
    integer part, is not rendered: the labels are one fewer than the
    gridlines, [set_yticklabels] fails with a [ValueError], and the figure
    stays open. *)
Theorem plot_security_report_label_mismatch t s module0 keys tokens0 top :
  t_module t = Some module0 ->
  t_failureRate t = Some keys ->
  t_tokens t = Some tokens0 ->
  List.length module0 = List.length keys ->
  List.length tokens0 = List.length keys ->
  1 <= List.length keys <= 676 ->
  In top keys ->
  (forall x, In x keys -> (x <= top)%Q) ->
  (1 <= top)%Q ->
  ~ (top == inject_Z (Qfloor top))%Q ->
  (Qfloor top mod 20 = 0)%Z ->
  exists msg,
    plot_security_report argsort format_1f (PyTable t) s
    = (Raise (ValueError msg),
       mkState
         (log s ++
          [(INFO, "Data preprocessing started."%string);
           (INFO, "Plot setup complete."%string);
           (ERROR,
            ("Error in generating the security report: " ++ msg)%string)])
         (figures s ++ [S (fold_right Nat.max 0 (figures s))])).
Proof.
  intros Hm Hk Ht Hlm Hlt Hn Hin Hmax Hge Hfrac Hmod.
  assert (Hpd : pd_DataFrame t
                = Return (mkDataFrame (List.length module0) (Some module0)
                            (Some keys) (Some tokens0) None)).
  { unfold pd_DataFrame, column_lengths. rewrite Hm, Hk, Ht. simpl.
    rewrite Hlm, Hlt, Nat.eqb_refl. reflexivity. }
  destruct (bar_colors_defined
              (rev ["#6C5B7B"; "#C06C84"; "#F67280"; "#F8B195"]%string)
              (take_column 0%Q (argsort keys) tokens0)
              (series_min_le_max (take_column 0%Q (argsort keys) tokens0)))
    as (color & Hcolor & _).
  destruct (@py_max_nonempty (take_column 0%Q (argsort keys) keys))
    as (top0 & Htop).
  { intros E. apply (f_equal (@List.length Q)) in E.
    unfold take_column in E.
    rewrite length_map, (argsort_length argsort_sorts) in E. simpl in E. lia. }
  assert (Hx : set_ticklabels
                 (linspace_turns (List.length (argsort keys)))
                 (map spec_identifier (seq 0 (List.length (argsort keys))))
               = Return tt).
  { apply set_ticklabels_Return. right.
    unfold linspace_turns. now rewrite !length_map. }
  assert (Heq : (top0 == top)%Q).
  { pose proof (take_column_Permutation 0%Q keys
                  (proj1 (argsort_sorts keys))) as Hperm.
    pose proof (py_max_spec _ Htop) as [Hin0 Hmax0].
    apply Qle_antisym.
    - apply Hmax. now apply (Permutation_in _ Hperm).
    - apply Hmax0. now apply (Permutation_in _ (Permutation_sym Hperm)). }
  destruct (@set_ticklabels_Raise _ (arange_20 top0)
              (map (fun x => (str_nat x ++ "%")%string)
                   (range_20 (py_int top0)))) as (msg & Hy).
  { intros Hok. apply yticklabels_accepted_iff in Hok.
    rewrite Heq in Hok. destruct Hok as [Hsmall|[Hw|Hnz]];
      [lra|now apply Hfrac|now apply Hnz]. }
  exists msg.
  assert (Hbody :
            plot_security_report_body argsort format_1f (PyTable t) s
            = (Raise (ValueError msg),
               mkState
                 ((log s ++ [(INFO, "Data preprocessing started."%string)]) ++
                  [(INFO, "Plot setup complete."%string)])
                 (figures s ++ [S (fold_right Nat.max 0 (figures s))]))).
  { unfold plot_security_report_body.
    erewrite bind_Return by reflexivity.
    erewrite bind_Return by reflexivity.
    erewrite bind_Return by (unfold lift; rewrite Hpd; reflexivity).
    erewrite bind_Return by reflexivity.
    erewrite bind_Return
      by (apply (@sorted_frame_identified _ keys); [reflexivity|exact Hn]).
    erewrite bind_Return by reflexivity.
    erewrite bind_Return by reflexivity.
    erewrite bind_Return by reflexivity.
    erewrite bind_Return by reflexivity.
    erewrite bind_Return by (unfold lift; rewrite Hcolor; reflexivity).
    erewrite bind_Return by (unfold lift; rewrite Htop; reflexivity).
    erewrite bind_Return by reflexivity.
    erewrite bind_Return by (unfold lift; cbn [df_len set_identifier take];
                             rewrite Hx; reflexivity).
    apply bind_Raise. unfold lift. now rewrite Hy. }
  unfold plot_security_report, try_except. rewrite Hbody.
  unfold bind, logging_error, logging, raise. simpl.
  now rewrite <- !app_assoc.
Qed.

End RendererEffects.

(** ** The further properties at concrete inputs *)

Lemma plot_security_report_missing_failureRate_witness :
  plot_security_report insertion_argsort format_1f_exact
    (PyTable (mkTable (Some ["alpha"]%string) None (Some [5 # 1]%Q)))
    empty_state
  = (Raise (KeyError "failureRate"),
     mkState
       (log empty_state ++
        [(INFO, "Data preprocessing started."%string);
         (ERROR,
          "Error in generating the security report: 'failureRate'"%string)])
       (figures empty_state)).
Proof.
  apply (@plot_security_report_missing_failureRate insertion_argsort
           format_1f_exact
           (mkTable (Some ["alpha"]%string) None (Some [5 # 1]%Q))
           (mkDataFrame 1 (Some ["alpha"]%string) None (Some [5 # 1]%Q) None)
           empty_state); reflexivity.
Defined.

Lemma plot_security_report_rejects_non_table_witness :
  plot_security_report insertion_argsort format_1f_exact
    (PyOther "a list of rows") empty_state
  = (Raise (TypeError "Input argument must be a pandas DataFrame."),
     mkState
       (log empty_state ++
        [(ERROR,
          "Error in generating the security report: Input argument must be a pandas DataFrame."%string)])
       (figures empty_state)).
Proof.
  apply (@plot_security_report_rejects_non_table insertion_argsort
           format_1f_exact (PyOther "a list of rows") empty_state).
  discriminate.
Defined.

Lemma plot_security_report_empty_witness :
  plot_security_report insertion_argsort format_1f_exact
    (PyTable (mkTable (Some []) (Some []) (Some []))) empty_state
  = (Raise (ValueError "DataFrame cannot be empty."),
     mkState
       (log empty_state ++
        [(INFO, "Data preprocessing started."%string);
         (ERROR,
          "Error in generate_identifiers: DataFrame cannot be empty."%string);
         (ERROR,
          "Error in generating the security report: DataFrame cannot be empty."%string)])
       (figures empty_state)).
Proof.
  apply (@plot_security_report_empty insertion_argsort format_1f_exact
           insertion_argsort_contract
           (mkTable (Some []) (Some []) (Some []))
           (mkDataFrame 0 (Some []) (Some []) (Some []) None) empty_state);
    reflexivity.
Defined.

Lemma plot_security_report_oversized_witness :
  plot_security_report insertion_argsort format_1f_exact
    (PyTable (mkTable None (Some (repeat (1 # 1)%Q 677)) None)) empty_state
  = (Raise (OverflowError "Cannot generate more than 676 unique identifiers."),
     mkState
       (log empty_state ++
        [(INFO, "Data preprocessing started."%string);
         (ERROR,
          "Error in generate_identifiers: Cannot generate more than 676 unique identifiers."%string);
         (ERROR,
          "Error in generating the security report: Cannot generate more than 676 unique identifiers."%string)])
       (figures empty_state)).
Proof.
  apply (@plot_security_report_oversized insertion_argsort format_1f_exact
           insertion_argsort_contract
           (mkTable None (Some (repeat (1 # 1)%Q 677)) None)
           (mkDataFrame 677 None (Some (repeat (1 # 1)%Q 677)) None None)
           (repeat (1 # 1)%Q 677) empty_state).
  - reflexivity.
  - reflexivity.
  - rewrite repeat_length. lia.
Defined.

Lemma plot_security_report_missing_tokens_witness :
  plot_security_report insertion_argsort format_1f_exact
    (PyTable table_without_tokens) empty_state
  = (Raise (KeyError "tokens"),
     mkState
       (log empty_state ++
        [(INFO, "Data preprocessing started."%string);
         (INFO, "Plot setup complete."%string);
         (ERROR, "Error in generating the security report: 'tokens'"%string)])
       (figures empty_state
        ++ [S (fold_right Nat.max 0 (figures empty_state))])).
Proof.
  apply (@plot_security_report_missing_tokens insertion_argsort format_1f_exact
           insertion_argsort_contract table_without_tokens
           (mkDataFrame 1 (Some ["alpha"]%string) (Some [10 # 1]%Q) None None)
           [10 # 1]%Q empty_state).
  - reflexivity.
  - reflexivity.
  - simpl. lia.
  - reflexivity.
Defined.

Lemma plot_security_report_missing_module_witness :
  plot_security_report insertion_argsort format_1f_exact
    (PyTable (mkTable None (Some [10 # 1]%Q) (Some [5 # 1]%Q))) empty_state
  = (Raise (KeyError "module"),
     mkState
       (log empty_state ++
        [(INFO, "Data preprocessing started."%string);
         (INFO, "Plot setup complete."%string);
         (ERROR, "Error in generating the security report: 'module'"%string)])
       (figures empty_state
        ++ [S (fold_right Nat.max 0 (figures empty_state))])).
Proof.
  apply (@plot_security_report_missing_module insertion_argsort format_1f_exact
           insertion_argsort_contract
           (mkTable None (Some [10 # 1]%Q) (Some [5 # 1]%Q))
           (mkDataFrame 1 None (Some [10 # 1]%Q) (Some [5 # 1]%Q) None)
           [10 # 1]%Q [5 # 1]%Q empty_state).
  - reflexivity.
  - reflexivity.
  - simpl. lia.
  - reflexivity.
  - reflexivity.
  - intros top [<-|[]] _. right. left. reflexivity.
Defined.


Lemma plot_security_report_success_effects_witness :
  exists buf s',
    plot_security_report insertion_argsort format_1f_exact
      (PyTable table_10_90_50) empty_state = (Return buf, s') /\
    log s'
    = log empty_state ++
      [(INFO, "Data preprocessing started."%string);
       (INFO, "Plot setup complete."%string);
       (INFO, "Report successfully generated and saved to buffer."%string)] /\
    figures s' = figures empty_state /\
    tell buf = AtStart /\
    dpi buf = 300.
Proof.
  eexists. eexists. split; [vm_compute; reflexivity|].
  eapply (@plot_security_report_success_effects insertion_argsort
            format_1f_exact (PyTable table_10_90_50) empty_state).
  vm_compute. reflexivity.
Defined.

Lemma bars_descending_witness :
  exists buf s',
    plot_security_report insertion_argsort format_1f_exact
      (PyTable table_10_90_50) empty_state = (Return buf, s') /\
    Permutation (map bar_height (bars (png_of buf)))
                [10 # 1; 90 # 1; 50 # 1]%Q /\
    StronglySorted (fun a b => (b <= a)%Q)
                   (map bar_height (bars (png_of buf))) /\
    xticklabels (png_of buf)
    = map spec_identifier
          (seq 0 (List.length [10 # 1; 90 # 1; 50 # 1]%Q)).
Proof.
  eexists. eexists. split; [vm_compute; reflexivity|].
  eapply (@bars_descending insertion_argsort format_1f_exact
            insertion_argsort_contract table_10_90_50 empty_state).
  - vm_compute. reflexivity.
  - reflexivity.
Defined.


Lemma bars_within_axis_witness :
  exists buf s',
    plot_security_report insertion_argsort format_1f_exact
      (PyTable table_10_90_50) empty_state = (Return buf, s') /\
    fst (set_ylim (png_of buf)) = 0%Q /\
    (0 < snd (set_ylim (png_of buf)))%Q /\
    (forall b, In b (bars (png_of buf)) ->
               (0 <= bar_height b <= snd (set_ylim (png_of buf)))%Q) /\
    (forall q, In q (yticks (png_of buf)) ->
               (0 <= q <= snd (set_ylim (png_of buf)))%Q).
Proof.
  eexists. eexists. split; [vm_compute; reflexivity|].
  eapply (@bars_within_axis insertion_argsort format_1f_exact
            insertion_argsort_contract table_10_90_50 empty_state).
  - vm_compute. reflexivity.
  - reflexivity.
  - simpl. intros x [<-|[<-|[<-|[]]]]; discriminate.
  - exists (10 # 1)%Q. split; [now left|reflexivity].
Defined.

Lemma chart_rows_aligned_witness :
  exists buf s',
    plot_security_report insertion_argsort format_1f_exact
      (PyTable table_10_90_50) empty_state = (Return buf, s') /\
    let angle :=
      (Z.of_nat 0
       # Pos.of_nat
           (List.length (insertion_argsort [10 # 1; 90 # 1; 50 # 1]%Q)))%Q in
    let rate := key_at [10 # 1; 90 # 1; 50 # 1]%Q 1 in
    nth_error (xticks (png_of buf)) 0 = Some angle /\
    nth_error (xticklabels (png_of buf)) 0 = Some (spec_identifier 0) /\
    (exists color,
        nth_error (bars (png_of buf)) 0
        = Some (mkBar angle rate (1 # 2) color (8 # 10))) /\
    nth_error (texts (png_of buf)) 0
    = Some (mkText angle rate
              (spec_identifier 0 ++ ": " ++ format_1f_exact rate ++ "%")%string
              (angle * 360 - 90)%Q) /\
    nth_error (table_cells (png_of buf)) 1
    = Some (mkCell
              (spec_identifier 0 ++ ": "
               ++ nth 1 ["alpha"; "beta"; "gamma"]%string EmptyString
               ++ " (" ++ format_1f_exact rate ++ "%)")%string
              (if 1 mod 2 =? 0 then "#f0f0f0"%string else "#e0e0e0"%string)
              false).
Proof.
  eexists. eexists. split; [vm_compute; reflexivity|].
  eapply (@chart_rows_aligned insertion_argsort format_1f_exact
            table_10_90_50 empty_state).
  - vm_compute. reflexivity.
  - reflexivity.
  - reflexivity.
  - reflexivity.
Defined.

Lemma chart_counts_witness :
  exists buf s',
    plot_security_report insertion_argsort format_1f_exact
      (PyTable table_10_90_50) empty_state = (Return buf, s') /\
    let n := List.length [10 # 1; 90 # 1; 50 # 1]%Q in
    List.length (bars (png_of buf)) = n /\
    List.length (xticks (png_of buf)) = n /\
    List.length (xticklabels (png_of buf)) = n /\
    List.length (texts (png_of buf)) = n /\
    List.length (table_cells (png_of buf)) = S n /\
    nth_error (table_cells (png_of buf)) 0
    = Some (mkCell "Threat" "#f0f0f0" true) /\
    (forall k cell,
        nth_error (table_cells (png_of buf)) k = Some cell ->
        cell_facecolor cell
        = (if k mod 2 =? 0 then "#f0f0f0"%string else "#e0e0e0"%string) /\
        cell_bold cell = (k =? 0)).
Proof.
  eexists. eexists. split; [vm_compute; reflexivity|].
  eapply (@chart_counts insertion_argsort format_1f_exact
            insertion_argsort_contract table_10_90_50 empty_state).
  - vm_compute. reflexivity.
  - reflexivity.
Defined.

Lemma colorbar_spans_tokens_witness :
  exists buf s',
    plot_security_report insertion_argsort format_1f_exact
      (PyTable table_10_90_50) empty_state = (Return buf, s') /\
    exists vmin vmax,
      colorbar_norm (png_of buf) = (vmin, vmax, "Token Count (k)"%string) /\
      (vmin < vmax)%Q /\
      In vmin [7 # 1; 3 # 1; 5 # 1]%Q /\ In vmax [7 # 1; 3 # 1; 5 # 1]%Q /\
      (forall x, In x [7 # 1; 3 # 1; 5 # 1]%Q -> (vmin <= x <= vmax)%Q).
Proof.
  eexists. eexists. split; [vm_compute; reflexivity|].
  eapply (@colorbar_spans_tokens insertion_argsort format_1f_exact
            insertion_argsort_contract table_10_90_50 empty_state).
  - vm_compute. reflexivity.
  - reflexivity.
  - exists (3 # 1)%Q, (7 # 1)%Q. simpl. repeat split; tauto.
Defined.

Lemma plot_security_report_label_mismatch_witness :
  exists msg,
    plot_security_report insertion_argsort format_1f_exact
      (PyTable table_80_5) empty_state
    = (Raise (ValueError msg),
       mkState
         (log empty_state ++
          [(INFO, "Data preprocessing started."%string);
           (INFO, "Plot setup complete."%string);
           (ERROR,
            ("Error in generating the security report: " ++ msg)%string)])
         (figures empty_state
          ++ [S (fold_right Nat.max 0 (figures empty_state))])).
Proof.
  eapply (@plot_security_report_label_mismatch insertion_argsort
            format_1f_exact insertion_argsort_contract table_80_5 empty_state
            ["alpha"%string] [161 # 2]%Q [5 # 1]%Q (161 # 2)%Q).
  - reflexivity.
  - reflexivity.
  - reflexivity.
  - reflexivity.
  - reflexivity.
  - simpl. lia.
  - simpl. left. reflexivity.
  - intros x [<-|[]]. apply Qle_refl.
  - vm_compute. discriminate.
  - vm_compute. discriminate.
  - reflexivity.
Defined.

(** The failure rate 80.5 gives the gridlines 0, 20, 40, 60 and 80 and the
    labels of 0, 20, 40 and 60. *)
Example table_80_5_rejected :
  fst (plot_security_report insertion_argsort format_1f_exact
         (PyTable table_80_5) empty_state)
  = Raise (ValueError
             "The number of FixedLocator locations (5), usually from a call to set_ticks, does not match the number of labels (4).").
Proof. vm_compute. reflexivity. Qed.
